(** * bumpversion.vcs: the version-control backends

    A shallow embedding of [src/bumpversion/vcs.py] and the properties of
    its three backends ([Git], [Mercurial], [SVN]) over the shared
    [BaseVCS] methods.

    Representation of text.  A Python [str] is held as the [string] of its
    UTF-8 code units and a [bytes] object as the [string] of its bytes, so
    [bytes.decode()] checks that the bytes are well formed and keeps them.
    A [str] can also hold a lone surrogate, U+D800 to U+DFFF, which has no
    UTF-8 form: it is what Python makes of a byte that is not UTF-8 in a
    command-line argument or a file name ([os.fsdecode(b"caf\xe9")] is
    ["caf\udce9"]).  Such a code point is held as the three code units
    ED A0..BF 80..BF that its bit pattern gives, which strict UTF-8 does
    not admit, so [str.encode("utf-8")] keeps the code units of a [str]
    that are well-formed UTF-8 and raises [UnicodeEncodeError] for one
    that holds a lone surrogate.  Every separator, marker and prefix
    the module handles (["-"], ["v"], ["g"], ["??"], ["URL:"], the layout
    folders) is ASCII, and there a code unit is a character.  Indices into
    a [str] count code units, which are the characters of an ASCII string
    such as the URL that [svn info] prints. *)

From Stdlib Require Import ZArith NArith Ascii String List Lia.
From stdpp Require Import base option list strings gmap fin_maps.

Local Open Scope Z_scope.

Abbreviation str := string (only parsing).
Abbreviation bytes := string (only parsing).

(** ** Text primitives of the Python runtime *)

Module Text.

Definition code (c : ascii) : N := N_of_ascii c.

Definition in_range (lo hi : N) (c : ascii) : bool :=
  ((lo <=? code c) && (code c <=? hi))%N.

(** A continuation byte of a UTF-8 sequence, [10xxxxxx]. *)
Definition continuation (c : ascii) : bool := in_range 128 191 c.

(** Well-formed UTF-8 (the strict decoder of [bytes.decode()]): no stray or
    missing continuation byte, no overlong form, no surrogate, nothing
    above U+10FFFF. *)
Fixpoint utf8_valid (s : bytes) : bool :=
  match s with
  | EmptyString => true
  | String b0 s1 =>
    if in_range 0 127 b0 then utf8_valid s1
    else if in_range 194 223 b0 then
      match s1 with
      | String b1 s2 => continuation b1 && utf8_valid s2
      | _ => false
      end
    else if in_range 224 239 b0 then
      match s1 with
      | String b1 (String b2 s3) =>
        (if (code b0 =? 224)%N then in_range 160 191 b1
         else if (code b0 =? 237)%N then in_range 128 159 b1
         else continuation b1)
        && continuation b2 && utf8_valid s3
      | _ => false
      end
    else if in_range 240 244 b0 then
      match s1 with
      | String b1 (String b2 (String b3 s4)) =>
        (if (code b0 =? 240)%N then in_range 144 191 b1
         else if (code b0 =? 244)%N then in_range 128 143 b1
         else continuation b1)
        && continuation b2 && continuation b3 && utf8_valid s4
      | _ => false
      end
    else false
  end.

(** [s.encode("utf-8")]: the code units themselves; [None] stands for
    [UnicodeEncodeError], raised for a [str] that holds a lone surrogate. *)
Definition encode (s : str) : option bytes :=
  if utf8_valid s then Some s else None.

(** [b.decode()]: [None] stands for [UnicodeDecodeError]. *)
Definition decode (b : bytes) : option str :=
  if utf8_valid b then Some b else None.

(** [s.startswith(p)] *)
Fixpoint startswith (s p : string) {struct p} : bool :=
  match p with
  | EmptyString => true
  | String c p' =>
    match s with
    | String d s' => Ascii.eqb c d && startswith s' p'
    | EmptyString => false
    end
  end.

(** Membership of a character in the character set of [lstrip(chars)]. *)
Fixpoint mem (c : ascii) (chars : string) : bool :=
  match chars with
  | EmptyString => false
  | String d chars' => Ascii.eqb c d || mem c chars'
  end.

(** [s.lstrip(chars)]: drops every leading character that is in [chars],
    however many there are. *)
Fixpoint lstrip (chars : string) (s : string) : string :=
  match s with
  | EmptyString => EmptyString
  | String c s' => if mem c chars then lstrip chars s' else s
  end.

(** [s.split(sep)] for a one-character separator: an empty [s] gives
    [[""]]. *)
Fixpoint split (sep : ascii) (s : string) : list string :=
  match s with
  | EmptyString => [EmptyString]
  | String c s' =>
    if Ascii.eqb c sep then EmptyString :: split sep s'
    else match split sep s' with
         | h :: t => String c h :: t
         | [] => [String c EmptyString]
         end
  end.

(** [sep.join(parts)] *)
Fixpoint join (sep : string) (parts : list string) : string :=
  match parts with
  | [] => EmptyString
  | [p] => p
  | p :: rest => p +:+ sep +:+ join sep rest
  end.

(** The characters of a [str]: each lead code unit with the continuation
    units that follow it. *)
Fixpoint chars (s : str) : list string :=
  match s with
  | EmptyString => []
  | String b rest =>
    match chars rest with
    | String b1 g :: gs =>
      if continuation b1 then String b (String b1 g) :: gs
      else String b EmptyString :: String b1 g :: gs
    | gs => String b EmptyString :: gs
    end
  end.

(** [str.isspace] on one character: U+0009..U+000D, U+001C..U+0020, U+0085,
    U+00A0, U+1680, U+2000..U+200A, U+2028, U+2029, U+202F, U+205F, U+3000,
    in UTF-8. *)
Definition isspace (ch : string) : bool :=
  match ch with
  | String b0 EmptyString => in_range 9 13 b0 || in_range 28 32 b0
  | String b0 (String b1 EmptyString) =>
    (code b0 =? 194)%N && ((code b1 =? 133)%N || (code b1 =? 160)%N)
  | String b0 (String b1 (String b2 EmptyString)) =>
    ((code b0 =? 225)%N && (code b1 =? 154)%N && (code b2 =? 128)%N)
    || ((code b0 =? 226)%N && (code b1 =? 128)%N
        && (in_range 128 138 b2 || in_range 168 169 b2 || (code b2 =? 175)%N))
    || ((code b0 =? 226)%N && (code b1 =? 129)%N && (code b2 =? 159)%N)
    || ((code b0 =? 227)%N && (code b1 =? 128)%N && (code b2 =? 128)%N)
  | _ => false
  end.

Fixpoint dropwhile {A} (p : A -> bool) (l : list A) : list A :=
  match l with
  | [] => []
  | x :: l' => if p x then dropwhile p l' else l
  end.

(** [s.strip()] on a [str]: whitespace characters removed at both ends. *)
Definition strip (s : str) : str :=
  join "" (rev (dropwhile isspace (rev (dropwhile isspace (chars s))))).

(** ASCII whitespace of [bytes.strip()]: space, \t, \n, \v, \f, \r. *)
Definition bspace (c : ascii) : bool := in_range 9 13 c || (code c =? 32)%N.

Fixpoint blstrip (b : bytes) : bytes :=
  match b with
  | EmptyString => EmptyString
  | String c b' => if bspace c then blstrip b' else b
  end.

Fixpoint brstrip (b : bytes) : bytes :=
  match b with
  | EmptyString => EmptyString
  | String c b' =>
    match brstrip b' with
    | EmptyString => if bspace c then EmptyString else String c EmptyString
    | t => String c t
    end
  end.

(** [b.strip()] on [bytes] *)
Definition bstrip (b : bytes) : bytes := brstrip (blstrip b).

Definition LF : ascii := ascii_of_N 10.
Definition CR : ascii := ascii_of_N 13.

(** [b.splitlines()] on [bytes]: lines end at \n, \r or \r\n; the ends are
    dropped and no empty last line is produced. *)
Fixpoint splitlines_from (line : bytes) (b : bytes) : list bytes :=
  match b with
  | EmptyString =>
    match line with EmptyString => [] | _ => [line] end
  | String c b' =>
    if Ascii.eqb c LF then line :: splitlines_from EmptyString b'
    else if Ascii.eqb c CR then
      match b' with
      | String d b'' =>
        if Ascii.eqb d LF then line :: splitlines_from EmptyString b''
        else line :: splitlines_from EmptyString b'
      | EmptyString => [line]
      end
    else splitlines_from (line +:+ String c EmptyString) b'
  end.

Definition splitlines (b : bytes) : list bytes := splitlines_from EmptyString b.

(** Every character of [s] passes the test [p]. *)
Fixpoint all (p : ascii -> bool) (s : string) : bool :=
  match s with
  | EmptyString => true
  | String c s' => p c && all p s'
  end.

(** [s.upper()] on the ASCII letters (the keys it is applied to are
    ["current_version"] and ["new_version"]). *)
Definition upper_char (c : ascii) : ascii :=
  if in_range 97 122 c then ascii_of_N (code c - 32) else c.

Fixpoint upper (s : str) : str :=
  match s with
  | EmptyString => EmptyString
  | String c s' => String (upper_char c) (upper s')
  end.

(** [s.rindex(sub)]: the highest index at which [sub] starts in [s];
    [None] stands for [ValueError]. *)
Fixpoint rindex (s sub : str) : option nat :=
  match s with
  | EmptyString => if startswith EmptyString sub then Some 0%nat else None
  | String _ s' =>
    match rindex s' sub with
    | Some i => Some (S i)
    | None => if startswith s sub then Some 0%nat else None
    end
  end.

Fixpoint take (n : nat) (s : string) : string :=
  match n, s with
  | S n', String c s' => String c (take n' s')
  | _, _ => EmptyString
  end.

(** [s[:stop]]: a negative [stop] counts from the end, and either way the
    bound is clipped to the string. *)
Definition slice_to (s : string) (stop : Z) : string :=
  let n := Z.of_nat (String.length s) in
  take (Z.to_nat (if stop <? 0 then Z.max 0 (n + stop) else Z.min stop n)) s.

Definition is_digit (c : ascii) : bool := in_range 48 57 c.

(** The digits of an [int] literal: single underscores are allowed between
    digits only. *)
Fixpoint int_digits (acc : Z) (after_digit : bool) (s : string) : option Z :=
  match s with
  | EmptyString => if after_digit then Some acc else None
  | String c s' =>
    if is_digit c then int_digits (10 * acc + Z.of_N (code c - 48)) true s'
    else if (code c =? 95)%N && after_digit then int_digits acc false s'
    else None
  end.

(** [int(s)] in base 10 on ASCII digits: surrounding whitespace and one
    sign are accepted; [None] stands for [ValueError]. *)
Definition int (s : str) : option Z :=
  match strip s with
  | String c s' =>
    if (code c =? 45)%N then Z.opp <$> int_digits 0 false s'
    else if (code c =? 43)%N then int_digits 0 false s'
    else int_digits 0 false (String c s')
  | EmptyString => None
  end.

Definition backslash : ascii := ascii_of_N 92.
Definition quote1 : ascii := ascii_of_N 39.
Definition quote2 : ascii := ascii_of_N 34.

Definition hex_digit (n : N) : ascii :=
  if (n <? 10)%N then ascii_of_N (48 + n) else ascii_of_N (87 + n).

(** One byte inside the [repr] of a [bytes] object. *)
Definition repr_byte (quote : ascii) (c : ascii) : string :=
  if Ascii.eqb c quote || Ascii.eqb c backslash
  then String backslash (String c EmptyString)
  else if (code c =? 9)%N then String backslash "t"
  else if (code c =? 10)%N then String backslash "n"
  else if (code c =? 13)%N then String backslash "r"
  else if (code c <? 32)%N || (127 <=? code c)%N
  then String backslash
         (String "x" (String (hex_digit (code c / 16))
                        (String (hex_digit (code c mod 16)) EmptyString)))
  else String c EmptyString.

Fixpoint repr_body (quote : ascii) (b : bytes) : string :=
  match b with
  | EmptyString => EmptyString
  | String c b' => repr_byte quote c +:+ repr_body quote b'
  end.

(** [repr(b)], which is also what [str.format] prints for a [bytes]
    argument: [b'...'], or [b"..."] when the bytes hold a single quote
    and no double quote. *)
Definition repr (b : bytes) : str :=
  let quote := if mem quote1 b && negb (mem quote2 b) then quote2 else quote1 in
  String "b" (String quote (repr_body quote b +:+ String quote EmptyString)).

End Text.

(** ** The Python runtime the module runs on: exceptions, the process
    environment, files, class attributes and child processes *)

(** The Python values the module stores in class attributes, local
    variables and the tag-info dictionary. *)
Inductive pyobj :=
| PyNone
| PyBool (b : bool)
| PyInt (n : Z)
| PyStr (s : str)
| PyList (items : list str).

(** The exceptions that can leave a method of the module. *)
Inductive exn :=
| CalledProcessError (returncode : Z) (cmd : pyobj) (output : bytes)
| OSError (errno : Z)
| KeyError (key : str)
| TypeError
| ValueError
| IndexError
| AttributeError (name : str)
| UnboundLocalError (name : str)
| UnicodeDecodeError
| UnicodeEncodeError
| WorkingDirectoryIsDirtyException (message : str)
| MercurialDoesNotSupportSignedTagsException (message : str).

Inductive result (A : Type) :=
| Ok (a : A)
| Raise (e : exn).
Arguments Ok {A} a.
Arguments Raise {A} e.

#[global] Instance result_ret : MRet result := fun A a => Ok a.
#[global] Instance result_bind : MBind result := fun A B f r =>
  match r with
  | Ok a => f a
  | Raise e => Raise e
  end.

(** A partial primitive of the runtime with the exception it raises. *)
Definition or_raise {A} (e : exn) (o : option A) : result A :=
  match o with
  | Some a => Ok a
  | None => Raise e
  end.

(** [errno.ENOENT], [errno.EACCES], [errno.ENOTDIR] *)
Definition ENOENT : Z := 2.
Definition EACCES : Z := 13.
Definition ENOTDIR : Z := 20.

(** What starting a child process leads to: it ran and exited with a
    return code and captured output, or the operating system refused to
    start it ([errno]). *)
Inductive outcome :=
| Exited (returncode : Z) (output : bytes)
| NotStarted (errno : Z).

(** The state the module runs in.  [execute] and [mkstemp] are the
    operating system's side: what a command does, given its arguments, its
    environment and the files it finds, and which name a new temporary file
    gets.  [started] records every command the module has started, oldest
    first, with the environment handed to it. *)
Record world := World {
  environ : gmap string string;
  files : gmap string string;
  classes : gmap (string * string) pyobj;
  started : list (list string * gmap string string);
  execute : list string -> gmap string string -> gmap string string
            -> outcome * gmap string string;
  mkstemp : gmap string string -> string
}.

Definition set_files (fs : gmap string string) (w : world) : world :=
  World (environ w) fs (classes w) (started w) (execute w) (mkstemp w).

Definition set_started (l : list (list string * gmap string string))
    (w : world) : world :=
  World (environ w) (files w) (classes w) l (execute w) (mkstemp w).

(** Computations of the module: they read and change the world and end in
    a value or an exception; the world reached when an exception is raised
    is kept, as [finally] and [except] clauses run in it. *)
Definition M (A : Type) : Type := world -> result A * world.

#[global] Instance M_ret : MRet M := fun A a w => (Ok a, w).
#[global] Instance M_bind : MBind M := fun A B f m w =>
  match m w with
  | (Ok a, w') => f a w'
  | (Raise e, w') => (Raise e, w')
  end.

Definition raise {A} (e : exn) : M A := fun w => (Raise e, w).

Definition lift {A} (r : result A) : M A := fun w => (r, w).

(** [try: body  except: handler] *)
Definition try_except {A} (body : M A) (handler : exn -> M A) : M A := fun w =>
  match body w with
  | (Ok a, w') => (Ok a, w')
  | (Raise e, w') => handler e w'
  end.

(** [try: body  finally: cleanup]: the cleanup runs however the body ends,
    and an exception of the cleanup replaces the body's outcome. *)
Definition try_finally {A} (body : M A) (cleanup : M unit) : M A := fun w =>
  match body w with
  | (r, w') =>
    match cleanup w' with
    | (Ok _, w'') => (r, w'')
    | (Raise e, w'') => (Raise e, w'')
    end
  end.

(** [os.environ.copy()] *)
Definition os_environ_copy : M (gmap string string) := fun w => (Ok (environ w), w).

(** [NamedTemporaryFile("wb", delete=False)]: a new, empty file that stays
    when it is closed; the result is its name, [f.name]. *)
Definition NamedTemporaryFile : M str := fun w =>
  let name := mkstemp w (files w) in
  (Ok name, set_files (<[name := EmptyString]> (files w)) w).

(** [f.write(data)] on a file opened with ["wb"], closed at the end of the
    [with] block. *)
Definition file_write (name : str) (data : bytes) : M unit := fun w =>
  (Ok tt, set_files (<[name := data]> (files w)) w).

(** [os.unlink(path)] *)
Definition os_unlink (path : str) : M unit := fun w =>
  match files w !! path with
  | Some _ => (Ok tt, set_files (delete path (files w)) w)
  | None => (Raise (OSError ENOENT), w)
  end.

(** The argument vector of a command line given to [subprocess]: a list
    with the program first, or a string that names the program. *)
Definition argv (cmd : pyobj) : result (list str) :=
  match cmd with
  | PyList (program :: args) => Ok (program :: args)
  | PyList [] => Raise IndexError
  | PyStr program => Ok [program]
  | _ => Raise TypeError
  end.

(** Starting a child process and waiting for it; without [env=] the child
    gets this process's environment. *)
Definition spawn (args : list str) (env : option (gmap string string)) :
    M (Z * bytes) := fun w =>
  let e := default (environ w) env in
  let w1 := set_started (started w ++ [(args, e)]) w in
  match execute w args e (files w) with
  | (Exited returncode output, fs) => (Ok (returncode, output), set_files fs w1)
  | (NotStarted errno, _) => (Raise (OSError errno), w1)
  end.

Definition run (cmd : pyobj) (env : option (gmap string string)) : M (Z * bytes) :=
  args ← lift (argv cmd);
  spawn args env.

(** [subprocess.call(cmd, stderr=PIPE, stdout=PIPE)] *)
Definition subprocess_call (cmd : pyobj) : M Z :=
  '(returncode, _) ← run cmd None; mret returncode.

(** [subprocess.check_output(cmd, env=env)] *)
Definition check_output (cmd : pyobj) (env : option (gmap string string)) : M bytes :=
  '(returncode, output) ← run cmd env;
  if returncode =? 0 then mret output
  else raise (CalledProcessError returncode cmd output).

(** [left + right] on the values of the module: list concatenation. *)
Definition py_add (left right : pyobj) : result pyobj :=
  match left, right with
  | PyList l, PyList r => Ok (PyList (l ++ r))
  | PyStr l, PyStr r => Ok (PyStr (l +:+ r))
  | _, _ => Raise TypeError
  end.

(** [obj[:stop]] and [obj[-1]] on a list. *)
Definition py_slice_to (obj : pyobj) (stop : Z) : result pyobj :=
  match obj with
  | PyList l =>
    let n := Z.of_nat (length l) in
    Ok (PyList (firstn (Z.to_nat (if stop <? 0 then Z.max 0 (n + stop)
                                  else Z.min stop n)) l))
  | PyStr s => Ok (PyStr (Text.slice_to s stop))
  | _ => Raise TypeError
  end.

Definition py_last (obj : pyobj) : result pyobj :=
  match obj with
  | PyList l => or_raise IndexError (PyStr <$> last l)
  | _ => Raise TypeError
  end.

(** [l.pop()]: the last item and the list without it. *)
Definition pop (l : list str) : result (str * list str) :=
  match last l with
  | Some x => Ok (x, removelast l)
  | None => Raise IndexError
  end.

(** [d[key]] on a dictionary. *)
Definition getitem {V} (d : gmap string V) (key : str) : result V :=
  or_raise (KeyError key) (d !! key).

(** [bool(x)] on an optional string: [None] and [""] are false. *)
Definition truthy (x : option str) : bool :=
  match x with
  | Some (String _ _) => true
  | _ => false
  end.

(** A [for] loop that threads one variable through its body. *)
Fixpoint for_each {A B} (items : list A) (body : B -> A -> M B) (b : B) : M B :=
  match items with
  | [] => mret b
  | x :: rest => b' ← body b x; for_each rest body b'
  end.

(** Reading a local variable of the running function. *)
Definition load_fast (frame : gmap string pyobj) (name : str) : M pyobj :=
  match frame !! name with
  | Some v => mret v
  | None => raise (UnboundLocalError name)
  end.

(** ** The classes of the module *)

Inductive backend := Git | Mercurial | SVN.

Definition class_name (cls : backend) : str :=
  match cls with
  | Git => "Git"
  | Mercurial => "Mercurial"
  | SVN => "SVN"
  end.

(** The class attributes as the class bodies define them. *)
Definition module_classes : gmap (string * string) pyobj :=
  <[("SVN", "_COMMIT_COMMAND") := PyList ["svn"; "commit"; "--file"]]>
  (<[("Mercurial", "_COMMIT_COMMAND") := PyList ["hg"; "commit"; "--logfile"]]>
  (<[("Mercurial", "_TEST_USABLE_COMMAND") := PyList ["hg"; "root"]]>
  (<[("Git", "_COMMIT_COMMAND") := PyList ["git"; "commit"; "-F"]]>
  (<[("Git", "_TEST_USABLE_COMMAND") := PyList ["git"; "rev-parse"; "--git-dir"]]>
  (<[("BaseVCS", "_COMMIT_COMMAND") := PyNone]>
  (<[("BaseVCS", "_TEST_USABLE_COMMAND") := PyNone]> ∅)))))).

(** [cls.name]: the attribute of the class itself, else of [BaseVCS]. *)
Definition getattr (cls : backend) (name : str) : M pyobj := fun w =>
  match classes w !! (class_name cls, name) with
  | Some v => (Ok v, w)
  | None =>
    match classes w !! ("BaseVCS", name) with
    | Some v => (Ok v, w)
    | None => (Raise (AttributeError name), w)
    end
  end.

Module BaseVCS.

(** [commit(cls, message, context, extra_args=None)].  The message is
    encoded inside the [with] block, once the file is there: when that
    raises, the block closes the file, which stays as [delete=False] has
    it.  The values of [context] are held as [str(...)] prints them; the
    call of [logger.exception] before the exception is raised again writes
    a log record only. *)
Definition commit (cls : backend) (message : str)
    (context : gmap string string) (extra_args : option (list str)) : M unit :=
  let extra_args := default [] extra_args in
  f ← NamedTemporaryFile;
  data ← lift (or_raise UnicodeEncodeError (Text.encode message));
  file_write f data;;
  env ← os_environ_copy;
  let env := <["HGENCODING" := "utf-8"]> env in
  env ← for_each ["current_version"; "new_version"]
        (fun env key =>
           value ← lift (getitem context key);
           mret (<["BUMPVERSION_" +:+ Text.upper key := value]> env))
        env;
  try_finally
    (try_except
       (template ← getattr cls "_COMMIT_COMMAND";
        cmd ← lift (py_add template (PyList [f]) ≫= fun c => py_add c (PyList extra_args));
        check_output cmd (Some env);;
        mret tt)
       (fun exc =>
          match exc with
          | CalledProcessError _ _ _ => raise exc
          | _ => raise exc
          end))
    (os_unlink f).

(** [is_usable(cls)] *)
Definition is_usable (cls : backend) : M bool :=
  try_except
    (cmd ← getattr cls "_TEST_USABLE_COMMAND";
     returncode ← subprocess_call cmd;
     mret (returncode =? 0))
    (fun e =>
       match e with
       | OSError errno =>
         if (errno =? ENOENT) || (errno =? EACCES) || (errno =? ENOTDIR)
         then mret false
         else raise e
       | _ => raise e
       end).

End BaseVCS.

(** The lines both [assert_nondirty] list comprehensions keep:
    [[line.strip() for line in out.splitlines()
      if not line.strip().startswith(b"??")]]. *)
Definition kept_lines (out : bytes) : list bytes :=
  map Text.bstrip
    (List.filter (fun line => negb (Text.startswith (Text.bstrip line) "??"))
       (Text.splitlines out)).

Definition newline : string := String Text.LF EmptyString.

(** The tail both [assert_nondirty] methods of [Git] and [Mercurial] share:
    nothing when no line is kept, else the exception with the decoded
    lines. *)
Definition raise_if_dirty (title : str) (lines : list bytes) : M unit :=
  match lines with
  | [] => mret tt
  | _ =>
    listing ← lift (or_raise UnicodeDecodeError (Text.decode (Text.join newline lines)));
    raise (WorkingDirectoryIsDirtyException (title +:+ newline +:+ listing))
  end.

Module Git.

Definition assert_nondirty : M unit :=
  out ← check_output (PyList ["git"; "status"; "--porcelain"]) None;
  raise_if_dirty "Git working directory is not clean:" (kept_lines out).

Definition describe_command : list str :=
  ["git"; "describe"; "--dirty"; "--tags"; "--long"; "--abbrev=40"; "--match=v*"].

(** Lines 110 to 120 of [latest_tag_info]: the tag info read off the
    pieces of the describe output. *)
Definition describe_info (describe_out : list str) : result (gmap string pyobj) :=
  let info : gmap string pyobj := ∅ in
  tail ← or_raise IndexError (last describe_out);
  let '(info, describe_out) :=
    if String.eqb (Text.strip tail) "dirty"
    then (<["dirty" := PyBool true]> info, removelast describe_out)
    else (info, describe_out) in
  '(sha, describe_out) ← pop describe_out;
  let info := <["commit_sha" := PyStr (Text.lstrip "g" sha)]> info in
  '(distance, describe_out) ← pop describe_out;
  n ← or_raise ValueError (Text.int distance);
  let info := <["distance_to_latest_tag" := PyInt n]> info in
  let info := <["current_version" :=
                  PyStr (Text.lstrip "v" (Text.join "-" describe_out))]> info in
  mret info.

(** [latest_tag_info(cls)].  The [try] block ends in the pieces of the
    describe output ([inl]); its handler ends the call with [{}] ([inr]). *)
Definition latest_tag_info : M (gmap string pyobj) :=
  r ← try_except
        (check_output (PyList ["git"; "update-index"; "--refresh"]) None;;
         out ← check_output (PyList describe_command) None;
         text ← lift (or_raise UnicodeDecodeError (Text.decode out));
         mret (inl (Text.split "-" text)))
        (fun e =>
           match e with
           | CalledProcessError _ _ _ => mret (inr (∅ : gmap string pyobj))
           | _ => raise e
           end);
  match r with
  | inl describe_out => lift (describe_info describe_out)
  | inr info => mret info
  end.

Definition add_path (path : str) : M unit :=
  check_output (PyList ["git"; "add"; "--update"; path]) None;; mret tt.

(** [tag(cls, sign, name, message)]: a lightweight tag when only the name
    is given; [message] is [None] or a string, and an empty one counts as
    none. *)
Definition tag (sign : bool) (name : str) (message : option str) : M unit :=
  let command := ["git"; "tag"; name] in
  let command := if sign then command ++ ["--sign"] else command in
  let command :=
    if truthy message then command ++ ["--message"; default EmptyString message]
    else command in
  check_output (PyList command) None;; mret tt.

End Git.

Module Mercurial.

Definition latest_tag_info : M (gmap string pyobj) := mret ∅.

Definition assert_nondirty : M unit :=
  out ← check_output (PyList ["hg"; "status"; "-mard"]) None;
  raise_if_dirty "Mercurial working directory is not clean:" (kept_lines out).

Definition add_path (path : str) : M unit := mret tt.

(** [tag(cls, sign, name, message)] *)
Definition tag (sign : bool) (name : str) (message : option str) : M unit :=
  let command := ["hg"; "tag"; name] in
  if sign
  then raise (MercurialDoesNotSupportSignedTagsException
                "Mercurial does not support signed tags.")
  else
    let command :=
      if truthy message then command ++ ["--message"; default EmptyString message]
      else command in
    check_output (PyList command) None;; mret tt.

End Mercurial.

(** [RepoUrls = collections.namedtuple('RepoUrls', ['base', 'root', 'current'])];
    [None] in a field is Python's [None]. *)
Record RepoUrls := mkRepoUrls {
  base : option str;
  root : option str;
  current : option str
}.

Module SVN.

(** [current_url(cls)]: the first line that starts with ["URL:"], without
    the leading characters that are in ["URL: "]; [None] when there is no
    such line. *)
Definition current_url : M (option str) :=
  out ← check_output (PyList ["svn"; "info"]) None;
  text ← lift (or_raise UnicodeDecodeError (Text.decode out));
  mret (Text.lstrip "URL: "
          <$> List.find (fun line => Text.startswith line "URL:")
                (Text.split Text.LF text)).

(** The loop of [repo_urls] over the folders: the first folder, in the
    order of the list, that occurs in the URL decides [base] and [root]. *)
Fixpoint locate (curr_url : str) (folders : list str) : option str * option str :=
  match folders with
  | [] => (None, None)
  | folder :: rest =>
    match Text.rindex curr_url folder with
    | None => locate curr_url rest
    | Some idx =>
      (Some (Text.slice_to curr_url (Z.of_nat idx - 1)),
       Some (Text.slice_to curr_url (Z.of_nat idx + Z.of_nat (String.length folder))))
    end
  end.

Definition folders : list str := ["branch"; "branches"; "trunk"].

(** The part of [repo_urls] after the call of [current_url]. *)
Definition urls_of (curr_url : option str) : RepoUrls :=
  let '(base, root) :=
    match curr_url with
    | Some url => locate url folders
    | None => (None, None)
    end in
  mkRepoUrls base root curr_url.

Definition repo_urls : M RepoUrls :=
  curr_url ← current_url;
  mret (urls_of curr_url).

Definition is_usable : M bool :=
  urls ← repo_urls;
  mret (truthy (base urls)).

Definition latest_tag_info : M (gmap string pyobj) := mret ∅.

Definition assert_nondirty : M unit :=
  uncommited ← check_output (PyList ["svn"; "status"; "-q"]) None;
  match uncommited with
  | String _ _ =>
    raise (WorkingDirectoryIsDirtyException
             ("SVN working directory is not clean:" +:+ newline
              +:+ Text.repr uncommited))
  | EmptyString => mret tt
  end.

(** [add_path(cls, path)]: the body assigns to [_COMMIT_COMMAND], which
    makes that name a local variable of the function; the frame starts
    with the parameter [path] only. *)
Definition add_path (path : str) : M unit :=
  let frame : gmap string pyobj := {[ "path" := PyStr path ]} in
  template ← load_fast frame "_COMMIT_COMMAND";
  front ← lift (py_slice_to template (-1));
  spliced ← lift (py_add front (PyList [path]));
  template ← load_fast frame "_COMMIT_COMMAND";
  back ← lift (py_last template);
  value ← lift (py_add spliced back);
  let frame := <["_COMMIT_COMMAND" := value]> frame in
  mret tt.

(** ['"{}"'.format(message) if message else '""'] *)
Definition quoted (message : option str) : str :=
  if truthy message
  then String Text.quote2 (default EmptyString message
                           +:+ String Text.quote2 EmptyString)
  else String Text.quote2 (String Text.quote2 EmptyString).

(** [tag(cls, sign, name, message)].  The command list is built from
    [urls.root] and [urls.base + "/tags/" + name]: the sum raises
    [TypeError] when [base] is [None], and so does [subprocess] for a list
    that holds [None]. *)
Definition tag (sign : bool) (name : str) (message : option str) : M unit :=
  urls ← repo_urls;
  target ← lift (match base urls with
                 | Some b => Ok (b +:+ "/tags/" +:+ name)
                 | None => Raise TypeError
                 end);
  match root urls with
  | Some r =>
    check_output
      (PyList ["svn"; "copy"; r; target; "--message"; quoted message]) None;;
    mret tt
  | None => raise TypeError
  end.

End SVN.

(** ** The methods a call on a backend class resolves to *)

Definition commit (cls : backend) := BaseVCS.commit cls.

Definition is_usable (cls : backend) : M bool :=
  match cls with
  | SVN => SVN.is_usable
  | _ => BaseVCS.is_usable cls
  end.

Definition assert_nondirty (cls : backend) : M unit :=
  match cls with
  | Git => Git.assert_nondirty
  | Mercurial => Mercurial.assert_nondirty
  | SVN => SVN.assert_nondirty
  end.

Definition latest_tag_info (cls : backend) : M (gmap string pyobj) :=
  match cls with
  | Git => Git.latest_tag_info
  | Mercurial => Mercurial.latest_tag_info
  | SVN => SVN.latest_tag_info
  end.

Definition add_path (cls : backend) (path : str) : M unit :=
  match cls with
  | Git => Git.add_path path
  | Mercurial => Mercurial.add_path path
  | SVN => SVN.add_path path
  end.

Definition tag (cls : backend) (sign : bool) (name : str)
    (message : option str) : M unit :=
  match cls with
  | Git => Git.tag sign name message
  | Mercurial => Mercurial.tag sign name message
  | SVN => SVN.tag sign name message
  end.

(** ** Vocabulary of the properties *)

(** The environment [commit] builds for the commit command. *)
Definition commit_env (w : world) (current_version new_version : str) :
    gmap string string :=
  <["BUMPVERSION_NEW_VERSION" := new_version]>
    (<["BUMPVERSION_CURRENT_VERSION" := current_version]>
       (<["HGENCODING" := "utf-8"]> (environ w))).

(** The environment handed to the last command [commit] started, [None]
    when it started none. *)
Definition commit_command_env (cls : backend) (message : str)
    (context : gmap string string) (extra_args : option (list str))
    (w : world) : option (gmap string string) :=
  snd <$> last (started (snd (commit cls message context extra_args w))).

(** The commit command of [cls] is given the forced text encoding. *)
Definition forces_utf8 (cls : backend) (message : str)
    (context : gmap string string) (w : world) : Prop :=
  commit_command_env cls message context None w ≫= (.!! "HGENCODING")
  = Some "utf-8".

(** The tag query of [Git.latest_tag_info] fails: [git update-index] or,
    after it, [git describe] exits with a nonzero code. *)
Definition git_query_fails (w : world) : Prop :=
  exists rc out fs,
    rc <> 0
    /\ (execute w ["git"; "update-index"; "--refresh"] (environ w) (files w)
        = (Exited rc out, fs)
        \/ exists out1 fs1,
            execute w ["git"; "update-index"; "--refresh"] (environ w) (files w)
            = (Exited 0 out1, fs1)
            /\ execute w Git.describe_command (environ w) fs1
               = (Exited rc out, fs)).

(** [SVN.add_path(path)] changes the command template of the class. *)
Definition mutates_commit_template (path : str) (w : world) : Prop :=
  classes (snd (add_path SVN path w)) !! ("SVN", "_COMMIT_COMMAND")
  <> classes w !! ("SVN", "_COMMIT_COMMAND").

(** The status query of each backend. *)
Definition status_command (cls : backend) : list str :=
  match cls with
  | Git => ["git"; "status"; "--porcelain"]
  | Mercurial => ["hg"; "status"; "-mard"]
  | SVN => ["svn"; "status"; "-q"]
  end.

(** A line of the status output of Git or Mercurial that stands for an
    untracked path: stripped, it starts with ["??"], the mark that
    [git status --porcelain] gives such a path and that both methods test
    for. *)
Definition untracked (line : bytes) : bool :=
  Text.startswith (Text.bstrip line) "??".

(** That output reports at least one changed path that is not
    untracked. *)
Definition reports_change (out : bytes) : bool :=
  existsb (fun line => negb (untracked line)) (Text.splitlines out).

(** The same for the status output of each backend.  For Git and
    Mercurial an untracked line is one with the mark both methods test
    for.  [SVN.assert_nondirty] tests for no mark; [svn status] marks an
    item that is not under version control with ["?"] in the first column
    of its line, and leaves such items out when it is run with [-q], as
    the method runs it. *)
Definition status_reports_change (cls : backend) (out : bytes) : bool :=
  match cls with
  | SVN =>
    existsb (fun line => negb (Text.startswith line "?")) (Text.splitlines out)
  | _ => reports_change out
  end.

Definition raises_dirty (r : result unit) : Prop :=
  exists message, r = Raise (WorkingDirectoryIsDirtyException message).

(** C3 in the words of the specification, for the backend [cls] in the
    world [w]: whatever the status query prints, the call raises
    [WorkingDirectoryDirty] exactly when a changed path that is not
    untracked is reported, and returns when none is. *)
Definition dirty_iff_change (cls : backend) (w : world) : Prop :=
  forall out fs,
    execute w (status_command cls) (environ w) (files w) = (Exited 0 out, fs) ->
    (raises_dirty (fst (assert_nondirty cls w))
     <-> status_reports_change cls out = true)
    /\ (status_reports_change cls out = false ->
        fst (assert_nondirty cls w) = Ok tt).

(** A hexadecimal digit, as in a commit id. *)
Definition is_hex (c : ascii) : bool :=
  Text.is_digit c || Text.in_range 97 102 c || Text.in_range 65 70 c.

Definition is_dash (c : ascii) : bool := Ascii.eqb c "-".

(** The describe string of a tag, a distance and a commit id. *)
Definition describe_string (tag distance sha : str) : str :=
  tag +:+ "-" +:+ distance +:+ "-g" +:+ sha.

(** The [current_version] the tag-info parser of [Git.latest_tag_info]
    reads off a describe string. *)
Definition parsed_version (describe : str) : result pyobj :=
  info ← Git.describe_info (Text.split "-" describe);
  getitem info "current_version".

(** A visible ASCII character. *)
Definition visible (c : ascii) : bool := Text.in_range 33 126 c.

(** The characters of an ASCII string. *)
Fixpoint singletons (s : string) : list string :=
  match s with
  | EmptyString => []
  | String c s' => String c EmptyString :: singletons s'
  end.

(** [sub] occurs in [s] at index [i]. *)
Fixpoint occurs_at (s sub : str) (i : nat) : bool :=
  match i with
  | O => Text.startswith s sub
  | S i' =>
    match s with
    | String _ s' => occurs_at s' sub i'
    | EmptyString => false
    end
  end.

(** The occurrence of [sub] at [i] is the rightmost one in [s]. *)
Definition rightmost_at (s sub : str) (i : nat) : Prop :=
  occurs_at s sub i = true /\ forall j, occurs_at s sub j = true -> (j <= i)%nat.

(** C6 in the words of the specification: of all the occurrences of all
    the layout markers, the one furthest to the right decides (the longer
    marker where two start at the same place); [root] ends just after it
    and [base] just before it, the separator left out as in the example of
    the specification. *)
Fixpoint rightmost_marker (url : str) (folders : list str) : option (nat * str) :=
  match folders with
  | [] => None
  | folder :: rest =>
    match Text.rindex url folder, rightmost_marker url rest with
    | Some i, Some (j, other) =>
      if (j <? i)%nat
         || ((j =? i)%nat && (String.length other <=? String.length folder)%nat)
      then Some (i, folder) else Some (j, other)
    | Some i, None => Some (i, folder)
    | None, found => found
    end
  end.

Definition spec_urls_of (url : str) : RepoUrls :=
  match rightmost_marker url SVN.folders with
  | Some (idx, folder) =>
    mkRepoUrls (Some (Text.slice_to url (Z.of_nat idx - 1)))
               (Some (Text.slice_to url (Z.of_nat idx + Z.of_nat (String.length folder))))
               (Some url)
  | None => mkRepoUrls None None (Some url)
  end.

(** ** Sample worlds *)

(** An operating system that answers the listed commands as listed, leaves
    the files alone, and has no other executable installed. *)
Fixpoint scripted (table : list (list str * outcome)) (args : list str)
    (env fs : gmap string string) : outcome * gmap string string :=
  match table with
  | [] => (NotStarted ENOENT, fs)
  | (cmd, o) :: rest =>
    if bool_decide (cmd = args) then (o, fs) else scripted rest args env fs
  end.

Definition sample_sha : str := "3f2a9c0d1e4b5a6978877665544332211000ffee".

(** A Git checkout with one modified and one untracked file, the tag
    [v1.2.3] on the current commit, and a commit hook that fails when an
    extra argument is passed. *)
Definition git_checkout : world :=
  World {[ "HOME" := "/home/dev" ]}
        {[ "setup.py" := "version = 1.2.3" ]}
        module_classes []
        (scripted
           [ (["git"; "rev-parse"; "--git-dir"], Exited 0 (".git" +:+ newline));
             (["git"; "status"; "--porcelain"],
              Exited 0 (" M setup.py" +:+ newline +:+ "?? notes.txt" +:+ newline));
             (["git"; "update-index"; "--refresh"], Exited 0 EmptyString);
             (Git.describe_command,
              Exited 0 ("v1.2.3-0-g" +:+ sample_sha +:+ "-dirty" +:+ newline));
             (["git"; "commit"; "-F"; "/tmp/tmpk3x9"], Exited 0 EmptyString);
             (["git"; "commit"; "-F"; "/tmp/tmpk3x9"; "--no-verify"],
              Exited 1 "hook failed") ])
        (fun _ => "/tmp/tmpk3x9").

(** A Git checkout without any tag. *)
Definition untagged_checkout : world :=
  World {[ "HOME" := "/home/dev" ]} ∅ module_classes []
        (scripted
           [ (["git"; "rev-parse"; "--git-dir"], Exited 0 (".git" +:+ newline));
             (["git"; "update-index"; "--refresh"], Exited 0 EmptyString);
             (Git.describe_command,
              Exited 128 ("fatal: No names found, cannot describe anything."
                          +:+ newline)) ])
        (fun _ => "/tmp/tmpk3x9").

(** A Subversion working copy under [trunk] with one modified file. *)
Definition svn_working_copy : world :=
  World {[ "HOME" := "/home/dev" ]} ∅ module_classes []
        (scripted
           [ (["svn"; "info"],
              Exited 0 ("Path: ." +:+ newline
                        +:+ "URL: https://svn.example.org/project/trunk/sub"
                        +:+ newline +:+ "Revision: 42" +:+ newline));
             (["svn"; "status"; "-q"],
              Exited 0 ("M       setup.py" +:+ newline)) ])
        (fun _ => "/tmp/tmpk3x9").

(** The URL of a working copy under [trunk], and the URL of one whose
    repository lies in a folder called [branch]. *)
Definition trunk_url : str := "https://svn.example.org/project/trunk/sub".

Definition nested_url : str := "https://svn.example.org/branch/legacy/trunk/src".

(** The URL of a working copy on a feature branch, under [branches]. *)
Definition branches_url : str := "https://svn.example.org/project/branches/feature".

Definition sample_context : gmap string string :=
  {[ "current_version" := "1.2.3"; "new_version" := "1.2.4" ]}.

(** The message ["Bump caf\udce9"]: the word is what [os.fsdecode] makes
    of the command-line argument [b"caf\xe9"], a name in Latin-1; the
    lone surrogate U+DCE9 is held as the code units ED B3 A9. *)
Definition surrogate_message : str :=
  "Bump caf" +:+ String (ascii_of_N 237)
                   (String (ascii_of_N 179) (String (ascii_of_N 169) EmptyString)).




(** ** Vocabulary and sample worlds of the further properties *)

(** The probe command and the commit command template the class bodies
    give each backend; [SVN] has no probe command of its own. *)
Definition probe_command (cls : backend) : list str :=
  match cls with
  | Git => ["git"; "rev-parse"; "--git-dir"]
  | Mercurial => ["hg"; "root"]
  | SVN => []
  end.

Definition commit_command (cls : backend) : list str :=
  match cls with
  | Git => ["git"; "commit"; "-F"]
  | Mercurial => ["hg"; "commit"; "--logfile"]
  | SVN => ["svn"; "commit"; "--file"]
  end.

(** The first line of the message of [WorkingDirectoryIsDirtyException]. *)
Definition dirty_title (cls : backend) : str :=
  match cls with
  | Git => "Git working directory is not clean:"
  | Mercurial => "Mercurial working directory is not clean:"
  | SVN => "SVN working directory is not clean:"
  end.

(** The command line of [Git.tag]. *)
Definition git_tag_command (sign : bool) (name : str) (message : option str) :
    list str :=
  ["git"; "tag"; name]
  ++ (if sign then ["--sign"] else [])
  ++ match message with
     | Some (String c m) => ["--message"; String c m]
     | _ => []
     end.

(** The command line of [SVN.tag] for the URLs [base] and [root]. *)
Definition svn_copy_command (base root name : str) (message : option str) :
    list str :=
  ["svn"; "copy"; root; base +:+ "/tags/" +:+ name; "--message";
   SVN.quoted message].

(** [w'] differs from [w] by the files and by commands started since:
    the environment of the process and the class attributes are the same,
    and no entry of the record of commands is lost. *)
Definition same_setting (w w' : world) : Prop :=
  environ w' = environ w
  /\ classes w' = classes w
  /\ exists l, started w' = started w ++ l.

(** The computation [m] keeps the setting, whatever world it starts in. *)
Definition keeps_setting {A} (m : M A) : Prop :=
  forall w, same_setting w (snd (m w)).

(** [s] ends with [suffix]; [p] is the beginning of [s]. *)
Definition endswith (s suffix : str) : Prop := exists front, s = front +:+ suffix.

Definition begins (s p : str) : Prop := exists rest, s = p +:+ rest.

(** A directory that is no working copy of any of the three systems: each
    status query exits with an error code. *)
Definition outside_repository : world :=
  World {[ "HOME" := "/home/dev" ]} ∅ module_classes []
        (scripted
           [ (["git"; "rev-parse"; "--git-dir"],
              Exited 128 ("fatal: not a git repository" +:+ newline));
             (["git"; "status"; "--porcelain"],
              Exited 128 ("fatal: not a git repository" +:+ newline));
             (["git"; "update-index"; "--refresh"],
              Exited 128 ("fatal: not a git repository" +:+ newline));
             (["hg"; "status"; "-mard"], Exited 255 "abort: no repository found");
             (["svn"; "status"; "-q"], Exited 1 EmptyString);
             (["svn"; "info"], Exited 0 ("Path: ." +:+ newline)) ])
        (fun _ => "/tmp/tmpk3x9").

(** A Subversion working copy under [trunk] in which copies succeed, and a
    Git checkout in which staging and tagging do. *)
Definition svn_tagging_copy : world :=
  World {[ "HOME" := "/home/dev" ]} ∅ module_classes []
        (scripted
           [ (["svn"; "info"],
              Exited 0 ("Path: ." +:+ newline
                        +:+ "URL: https://svn.example.org/project/trunk/sub"
                        +:+ newline));
             (svn_copy_command "https://svn.example.org/project"
                "https://svn.example.org/project/trunk" "v1.2.4"
                (Some "Release 1.2.4"),
              Exited 0 ("Committed revision 43." +:+ newline)) ])
        (fun _ => "/tmp/tmpk3x9").

Definition git_tagging_checkout : world :=
  World {[ "HOME" := "/home/dev" ]} ∅ module_classes []
        (scripted
           [ (["git"; "add"; "--update"; "setup.py"], Exited 0 EmptyString);
             (["git"; "add"; "--update"; "missing.py"],
              Exited 128 ("fatal: pathspec 'missing.py' did not match any files"
                          +:+ newline));
             (git_tag_command true "v1.2.4" (Some "Release 1.2.4"),
              Exited 0 EmptyString);
             (git_tag_command false "v1.2.4" None,
              Exited 128 ("fatal: tag 'v1.2.4' already exists" +:+ newline)) ])
        (fun _ => "/tmp/tmpk3x9").

(** A Git checkout whose commit hook removes the temporary files it finds,
    the message file among them, and lets the commit succeed. *)
Definition hook_cleans_tmp : world :=
  World {[ "HOME" := "/home/dev" ]} ∅ module_classes []
        (fun args env fs => (Exited 0 EmptyString, delete "/tmp/tmpk3x9" fs))
        (fun _ => "/tmp/tmpk3x9").

(** A Mercurial repository with a changed file whose name is in Latin-1,
    the byte E9 for its accented letter: [hg status] prints the bytes of
    the name as they are. *)
Definition latin1_repository : world :=
  World {[ "HOME" := "/home/dev" ]} ∅ module_classes []
        (scripted
           [ (["hg"; "status"; "-mard"],
              Exited 0 ("M caf" +:+ String (ascii_of_N 233) ".txt" +:+ newline)) ])
        (fun _ => "/tmp/tmpk3x9").

(** A Git checkout with a changed file whose name is in Latin-1, printed
    as it is. *)
Definition latin1_checkout : world :=
  World {[ "HOME" := "/home/dev" ]} ∅ module_classes []
        (scripted
           [ (["git"; "status"; "--porcelain"],
              Exited 0 (" M caf" +:+ String (ascii_of_N 233) ".txt" +:+ newline)) ])
        (fun _ => "/tmp/tmpk3x9").

(** * Properties *)

Ltac unfold_monad :=
  unfold mbind, M_bind, mret, M_ret, result_bind, result_ret, lift, raise in *.

(** ** [commit] *)

Lemma try_finally_unlink {A} (body : M A) (f : str) (w : world) :
  files (snd (try_finally body (os_unlink f) w)) !! f = None.
Proof.
  unfold try_finally, os_unlink.
  destruct (body w) as [r w1].
  destruct (files w1 !! f) eqn:E; simpl.
  - apply lookup_delete_eq.
  - exact E.
Qed.

(** With a message that has a UTF-8 form and both keys in the context,
    [commit] is its [try] statement run in the world that holds the
    message file. *)
Lemma commit_with_keys cls message data context extra_args w cv nv :
  Text.encode message = Some data ->
  context !! "current_version" = Some cv ->
  context !! "new_version" = Some nv ->
  exists body,
    commit cls message context extra_args w =
    try_finally body (os_unlink (mkstemp w (files w)))
      (set_files (<[mkstemp w (files w) := data]>
                   (<[mkstemp w (files w) := EmptyString]> (files w))) w).
Proof.
  intros Hm Hc Hn. eexists.
  unfold commit, BaseVCS.commit, NamedTemporaryFile, file_write, os_environ_copy.
  unfold for_each, getitem. unfold_monad. rewrite Hm. simpl.
  rewrite Hc, Hn. simpl. reflexivity.
Qed.

Lemma argv_app template f extra :
  argv (PyList (template ++ [f] ++ extra)) = Ok (template ++ [f] ++ extra).
Proof. destruct template; reflexivity. Qed.

Lemma env_key_current : "BUMPVERSION_" +:+ Text.upper "current_version" = "BUMPVERSION_CURRENT_VERSION".
Proof. reflexivity. Qed.

Lemma env_key_new : "BUMPVERSION_" +:+ Text.upper "new_version" = "BUMPVERSION_NEW_VERSION".
Proof. reflexivity. Qed.

(** What [commit] does once the class has a command template: one run of
    the command, on the files that include the message file, followed by
    the removal of that file. *)
Lemma commit_unfold cls message data context extra_args w cv nv template :
  Text.encode message = Some data ->
  context !! "current_version" = Some cv ->
  context !! "new_version" = Some nv ->
  (forall w', classes w' = classes w ->
     getattr cls "_COMMIT_COMMAND" w' = (Ok (PyList template), w')) ->
  let f := mkstemp w (files w) in
  let fs1 := <[f := data]> (<[f := EmptyString]> (files w)) in
  let cmd := template ++ [f] ++ default [] extra_args in
  let env := commit_env w cv nv in
  let log := started w ++ [(cmd, env)] in
  commit cls message context extra_args w =
  match execute w cmd env fs1 with
  | (Exited rc out, fs) =>
    match fs !! f with
    | Some _ =>
      (if rc =? 0 then Ok tt else Raise (CalledProcessError rc (PyList cmd) out),
       World (environ w) (delete f fs) (classes w) log (execute w) (mkstemp w))
    | None =>
      (Raise (OSError ENOENT),
       World (environ w) fs (classes w) log (execute w) (mkstemp w))
    end
  | (NotStarted errno, _) =>
    (Raise (OSError errno),
     World (environ w) (delete f fs1) (classes w) log (execute w) (mkstemp w))
  end.
Proof.
  intros Hm Hc Hn Hattr f fs1 cmd env log.
  unfold commit, BaseVCS.commit, NamedTemporaryFile, file_write, os_environ_copy.
  unfold for_each, getitem. unfold_monad.
  rewrite Hm, Hc, Hn, env_key_current, env_key_new. simpl.
  unfold try_finally, try_except.
  rewrite Hattr by reflexivity. simpl.
  rewrite <- (app_assoc template [mkstemp w (files w)] (default [] extra_args)).
  unfold check_output, run. unfold_monad.
  rewrite argv_app. unfold spawn. simpl.
  fold f. fold fs1. fold (commit_env w cv nv). fold env.
  change (template ++ f :: default [] extra_args) with cmd. fold log.
  destruct (execute w cmd env fs1) as [[rc out | errno] fs]; simpl.
  - destruct (rc =? 0); simpl; unfold os_unlink; simpl;
      destruct (fs !! f); reflexivity.
  - unfold os_unlink; simpl. subst fs1. rewrite lookup_insert_eq. reflexivity.
Qed.

(** The three backends keep their command template in the class itself. *)
Lemma getattr_commit_command cls w :
  classes w = module_classes ->
  exists template,
    getattr cls "_COMMIT_COMMAND" w = (Ok (PyList template), w).
Proof.
  intros H. unfold getattr. rewrite H.
  destruct cls; eexists; vm_compute; reflexivity.
Qed.

(** For a message that has a UTF-8 form and a context with both version
    keys, however the commit command ends (it succeeds, it exits nonzero
    and the call raises, or it cannot be started), the message file
    [commit] created does not exist once the call is over. *)
Lemma commit_removes_message_file cls message data context extra_args w cv nv :
  Text.encode message = Some data ->
  context !! "current_version" = Some cv ->
  context !! "new_version" = Some nv ->
  files (snd (commit cls message context extra_args w)) !! mkstemp w (files w)
  = None.
Proof.
  intros Hm Hc Hn.
  destruct (commit_with_keys cls message data context extra_args w cv nv Hm Hc Hn)
    as [body ->].
  apply try_finally_unlink.
Qed.

(** C2, where the code departs from it. A message that has no UTF-8 form
    (it holds a lone surrogate) makes [message.encode] raise
    [UnicodeEncodeError] inside the [with] block, after the message file
    was created and before the [try] statement whose [finally] clause
    removes it: for every backend, context and extra arguments, [commit]
    raises that exception, has started no command, and the message file is
    still there, empty, once the call is over. *)
Theorem commit_leaves_message_file cls message context extra_args w :
  Text.encode message = None ->
  let f := mkstemp w (files w) in
  let r := commit cls message context extra_args w in
  fst r = Raise UnicodeEncodeError
  /\ started (snd r) = started w
  /\ files (snd r) !! f = Some EmptyString.
Proof.
  intros Hm f r. subst r f.
  unfold commit, BaseVCS.commit, NamedTemporaryFile. unfold_monad.
  rewrite Hm. cbn [or_raise fst snd started files set_files].
  split; [reflexivity | split; [reflexivity | apply lookup_insert_eq]].
Qed.

Lemma commit_leaves_message_file_witness :
  Text.encode surrogate_message = None
  /\ sample_context !! "current_version" = Some "1.2.3"
  /\ sample_context !! "new_version" = Some "1.2.4"
  /\ fst (commit Git surrogate_message sample_context None git_checkout)
     = Raise UnicodeEncodeError
  /\ started (snd (commit Git surrogate_message sample_context None git_checkout))
     = []
  /\ files (snd (commit Git surrogate_message sample_context None git_checkout))
       !! "/tmp/tmpk3x9" = Some EmptyString.
Proof.
  split; [reflexivity | split; [reflexivity | split; [reflexivity |]]].
  exact (commit_leaves_message_file Git surrogate_message sample_context None
           git_checkout eq_refl).
Defined.

(** The two ways for the command to end that the specification names,
    for a message that has a UTF-8 form and while the message file is
    still there: exit code 0 and [commit] returns, any other exit
    code and [commit] raises [CalledProcessError]; either way the file is
    removed from what the command left. *)
Lemma commit_outcome cls message data context extra_args w cv nv template rc out fs :
  Text.encode message = Some data ->
  context !! "current_version" = Some cv ->
  context !! "new_version" = Some nv ->
  (forall w', classes w' = classes w ->
     getattr cls "_COMMIT_COMMAND" w' = (Ok (PyList template), w')) ->
  let f := mkstemp w (files w) in
  let cmd := template ++ [f] ++ default [] extra_args in
  execute w cmd (commit_env w cv nv)
    (<[f := data]> (<[f := EmptyString]> (files w)))
  = (Exited rc out, fs) ->
  is_Some (fs !! f) ->
  fst (commit cls message context extra_args w)
  = (if rc =? 0 then Ok tt else Raise (CalledProcessError rc (PyList cmd) out))
  /\ files (snd (commit cls message context extra_args w)) = delete f fs.
Proof.
  intros Hm Hc Hn Hattr f cmd Hrun [content Hf].
  rewrite (commit_unfold cls message data context extra_args w cv nv template
             Hm Hc Hn Hattr).
  fold f. fold cmd. rewrite Hrun, Hf. split; reflexivity.
Qed.



(** C8, as the code has it. For every backend and every message that has a
    UTF-8 form, the commit command is started with this process's
    environment plus [BUMPVERSION_CURRENT_VERSION] and
    [BUMPVERSION_NEW_VERSION] from the context and plus
    [HGENCODING=utf-8]; the encoding variable is there for every backend,
    Git and SVN as well as Mercurial; and the environment of this process
    is the same after the call. *)
Theorem commit_environment_overlay cls message data context extra_args w cv nv :
  Text.encode message = Some data ->
  classes w = module_classes ->
  context !! "current_version" = Some cv ->
  context !! "new_version" = Some nv ->
  let r := commit cls message context extra_args w in
  (exists cmd, started (snd r) = started w ++ [(cmd, commit_env w cv nv)])
  /\ commit_env w cv nv !! "BUMPVERSION_CURRENT_VERSION" = Some cv
  /\ commit_env w cv nv !! "BUMPVERSION_NEW_VERSION" = Some nv
  /\ commit_env w cv nv !! "HGENCODING" = Some "utf-8"
  /\ (forall name, name <> "BUMPVERSION_CURRENT_VERSION" ->
        name <> "BUMPVERSION_NEW_VERSION" -> name <> "HGENCODING" ->
        commit_env w cv nv !! name = environ w !! name)
  /\ environ (snd r) = environ w.
Proof.
  intros Hm Hcls Hc Hn r.
  assert (exists template, forall w', classes w' = classes w ->
            getattr cls "_COMMIT_COMMAND" w' = (Ok (PyList template), w'))
    as [template Hattr].
  { destruct (getattr_commit_command cls w Hcls) as [template Ht].
    exists template. intros w' Hw'. unfold getattr in *.
    rewrite Hw'.
    destruct (classes w !! (class_name cls, "_COMMIT_COMMAND"));
      [| destruct (classes w !! ("BaseVCS", "_COMMIT_COMMAND"))];
      congruence. }
  split; [| split; [| split; [| split; [| split]]]].
  - subst r.
    rewrite (commit_unfold cls message data context extra_args w cv nv template
               Hm Hc Hn Hattr).
    eexists.
    destruct (execute w _ _ _) as [[rc out | errno] fs]; simpl;
      [destruct (fs !! _) |]; reflexivity.
  - unfold commit_env. rewrite lookup_insert_ne by discriminate.
    apply lookup_insert_eq.
  - unfold commit_env. apply lookup_insert_eq.
  - unfold commit_env. rewrite !lookup_insert_ne by discriminate.
    apply lookup_insert_eq.
  - intros name H1 H2 H3. unfold commit_env.
    rewrite !lookup_insert_ne by congruence. reflexivity.
  - subst r.
    rewrite (commit_unfold cls message data context extra_args w cv nv template
               Hm Hc Hn Hattr).
    destruct (execute w _ _ _) as [[rc out | errno] fs]; simpl;
      [destruct (fs !! _) |]; reflexivity.
Qed.

Lemma commit_environment_overlay_witness :
  Text.encode "Bump version" = Some "Bump version"
  /\ classes git_checkout = module_classes
  /\ sample_context !! "current_version" = Some "1.2.3"
  /\ sample_context !! "new_version" = Some "1.2.4"
  /\ (exists cmd,
        started (snd (commit SVN "Bump version" sample_context None git_checkout))
        = started git_checkout ++ [(cmd, commit_env git_checkout "1.2.3" "1.2.4")])
  /\ commit_env git_checkout "1.2.3" "1.2.4" !! "HGENCODING" = Some "utf-8"
  /\ environ (snd (commit SVN "Bump version" sample_context None git_checkout))
     = environ git_checkout.
Proof.
  pose proof (commit_environment_overlay SVN "Bump version" "Bump version"
                sample_context None git_checkout "1.2.3" "1.2.4"
                eq_refl eq_refl eq_refl eq_refl) as H.
  split; [reflexivity |].
  split; [reflexivity | split; [reflexivity | split; [reflexivity |]]].
  split; [exact (proj1 H) |].
  split; [exact (proj1 (proj2 (proj2 (proj2 H)))) |].
  exact (proj2 (proj2 (proj2 (proj2 (proj2 H))))).
Defined.

(** C8 as stated does not hold: the encoding variable is not given to the
    command of exactly one backend, Git's commit command gets it too. *)
Lemma forces_utf8_not_only_mercurial :
  ~ (forall cls,
       forces_utf8 cls "Bump version" sample_context git_checkout
       <-> cls = Mercurial).
Proof.
  intros H.
  assert (Git = Mercurial) as Habs; [| discriminate Habs].
  apply H. vm_compute. reflexivity.
Qed.

(** ** [is_usable] *)

Lemma getattr_test_usable_command cls w :
  cls <> SVN ->
  classes w = module_classes ->
  exists program args,
    getattr cls "_TEST_USABLE_COMMAND" w = (Ok (PyList (program :: args)), w).
Proof.
  intros Hcls H. unfold getattr. rewrite H.
  destruct cls; [| | congruence]; eexists _, _; vm_compute; reflexivity.
Qed.

(** [BaseVCS.is_usable], which [Git] and [Mercurial] inherit: when the
    probe command cannot be started for one of the three expected reasons,
    the answer is [False]. *)
Lemma base_is_usable_without_executable cls w errno :
  cls <> SVN ->
  classes w = module_classes ->
  (forall args, fst (execute w args (environ w) (files w)) = NotStarted errno) ->
  errno = ENOENT \/ errno = EACCES \/ errno = ENOTDIR ->
  fst (is_usable cls w) = Ok false.
Proof.
  intros Hcls Hclasses Hrun Herrno.
  destruct (getattr_test_usable_command cls w Hcls Hclasses)
    as (program & args & Hattr).
  assert (is_usable cls = BaseVCS.is_usable cls) as ->
    by (destruct cls; [reflexivity | reflexivity | congruence]).
  unfold BaseVCS.is_usable, try_except, subprocess_call, run, spawn.
  unfold_monad. rewrite Hattr. simpl.
  pose proof (Hrun (program :: args)) as Hr.
  destruct (execute w (program :: args) (environ w) (files w)) as [o fs].
  simpl in Hr. subst o. simpl.
  destruct Herrno as [-> | [-> | ->]]; reflexivity.
Qed.

(** C1, where the code departs from it. [SVN.is_usable] has no handler of its
    own: when the [svn] executable cannot be started, the [OSError] of
    [svn info] leaves the call, whatever its [errno]. *)
Theorem svn_is_usable_raises_without_executable w errno :
  fst (execute w ["svn"; "info"] (environ w) (files w)) = NotStarted errno ->
  fst (is_usable SVN w) = Raise (OSError errno).
Proof.
  intros Hrun.
  unfold is_usable, SVN.is_usable, SVN.repo_urls, SVN.current_url, check_output, run, spawn.
  unfold_monad. simpl.
  destruct (execute w ["svn"; "info"] (environ w) (files w)) as [o fs].
  simpl in Hrun. subst o. reflexivity.
Qed.

Lemma svn_is_usable_raises_without_executable_witness :
  fst (execute git_checkout ["svn"; "info"] (environ git_checkout)
         (files git_checkout)) = NotStarted ENOENT
  /\ fst (is_usable SVN git_checkout) = Raise (OSError ENOENT).
Proof.
  split; [reflexivity |].
  apply (svn_is_usable_raises_without_executable git_checkout ENOENT).
  reflexivity.
Defined.

(** Nor has it one for the exit code of [svn info], which is not zero
    outside a working copy. *)
Lemma svn_is_usable_raises_outside_working_copy w rc out fs :
  rc <> 0 ->
  execute w ["svn"; "info"] (environ w) (files w) = (Exited rc out, fs) ->
  fst (is_usable SVN w)
  = Raise (CalledProcessError rc (PyList ["svn"; "info"]) out).
Proof.
  intros Hrc Hrun. apply Z.eqb_neq in Hrc.
  unfold is_usable, SVN.is_usable, SVN.repo_urls, SVN.current_url, check_output, run, spawn.
  unfold_monad. simpl. rewrite Hrun. simpl. rewrite Hrc. reflexivity.
Qed.

(** Inside a working copy under [trunk] it answers [True]. *)
Example svn_is_usable_under_trunk :
  fst (is_usable SVN svn_working_copy) = Ok true.
Proof. reflexivity. Qed.

(** ** [latest_tag_info] *)

(** C7. [latest_tag_info] returns the empty dictionary, and raises
    nothing, for Mercurial and SVN always and for Git whenever one of the
    two commands of the tag query exits with a nonzero code. *)
Theorem latest_tag_info_empty cls w :
  (cls = Git -> git_query_fails w) ->
  fst (latest_tag_info cls w) = Ok ∅.
Proof.
  intros Hgit. destruct cls; [| reflexivity | reflexivity].
  destruct (Hgit eq_refl) as (rc & out & fs & Hrc & Hfail).
  apply Z.eqb_neq in Hrc.
  unfold Git.describe_command in Hfail.
  unfold latest_tag_info, Git.latest_tag_info, try_except, check_output, run, spawn.
  unfold Git.describe_command.
  unfold_monad. simpl.
  destruct Hfail as [Hupd | (out1 & fs1 & Hupd & Hdesc)].
  - rewrite Hupd. simpl. rewrite Hrc. reflexivity.
  - rewrite Hupd. simpl. rewrite Hdesc. simpl. rewrite Hrc. reflexivity.
Qed.

Lemma latest_tag_info_empty_witness :
  (Git = Git -> git_query_fails untagged_checkout)
  /\ fst (latest_tag_info Git untagged_checkout) = Ok ∅.
Proof.
  assert (Git = Git -> git_query_fails untagged_checkout) as H.
  { intros _.
    exists 128, ("fatal: No names found, cannot describe anything." +:+ newline),
      (files untagged_checkout).
    split; [discriminate |].
    right. exists EmptyString, (files untagged_checkout).
    split; reflexivity. }
  split; [exact H |].
  apply (latest_tag_info_empty Git untagged_checkout H).
Defined.

(** ** [add_path] *)

(** C9, as the code has it. For every path, [SVN.add_path] raises
    [UnboundLocalError] at the first read of [_COMMIT_COMMAND], which is a
    local variable of the function; it leaves the world as it found it: no
    command is started, no path is staged, and the class attributes,
    the command template among them, are unchanged. *)
Theorem svn_add_path_raises path w :
  add_path SVN path w = (Raise (UnboundLocalError "_COMMIT_COMMAND"), w).
Proof. reflexivity. Qed.

(** C9 as stated does not hold: the command template of the class is the
    same after [add_path]. *)
Lemma svn_add_path_keeps_template :
  ~ mutates_commit_template "setup.py" git_checkout.
Proof. intros H. apply H. reflexivity. Qed.

(** A [commit] after [add_path] starts the same command as one before. *)
Lemma commit_after_svn_add_path path message context extra_args w :
  commit SVN message context extra_args (snd (add_path SVN path w))
  = commit SVN message context extra_args w.
Proof. reflexivity. Qed.

(** ** [assert_nondirty] *)

Lemma kept_lines_nil out :
  kept_lines out = [] <-> reports_change out = false.
Proof.
  unfold kept_lines, reports_change.
  change (fun line => negb (Text.startswith (Text.bstrip line) "??"))
    with (fun line => negb (untracked line)).
  induction (Text.splitlines out) as [| line lines IH];
    cbn [List.filter map existsb].
  - split; reflexivity.
  - destruct (untracked line); cbn [negb orb map].
    + exact IH.
    + split; discriminate.
Qed.

(** The outcome of the check shared by Git and Mercurial, read off the
    lines that are kept. *)
Lemma raise_if_dirty_outcome title lines w :
  fst (raise_if_dirty title lines w)
  = match lines with
    | [] => Ok tt
    | _ =>
      if Text.utf8_valid (Text.join newline lines)
      then Raise (WorkingDirectoryIsDirtyException
                    (title +:+ newline +:+ Text.join newline lines))
      else Raise UnicodeDecodeError
    end.
Proof.
  unfold raise_if_dirty. destruct lines as [| l ls]; [reflexivity |].
  unfold Text.decode. unfold_monad.
  destruct (Text.utf8_valid (Text.join newline (l :: ls))); reflexivity.
Qed.

Lemma filtering_assert_nondirty cls title program args w out fs :
  execute w (program :: args) (environ w) (files w) = (Exited 0 out, fs) ->
  assert_nondirty cls w
  = (mbind (fun o => raise_if_dirty title (kept_lines o))
       (check_output (PyList (program :: args)) None)) w ->
  let r := fst (assert_nondirty cls w) in
  (r = Ok tt <-> reports_change out = false)
  /\ (raises_dirty r -> reports_change out = true)
  /\ (reports_change out = true ->
      Text.utf8_valid (Text.join newline (kept_lines out)) = true ->
      raises_dirty r).
Proof.
  intros Hrun Hdef r. subst r. rewrite Hdef.
  unfold check_output, run, spawn. unfold_monad. simpl. rewrite Hrun. simpl.
  rewrite raise_if_dirty_outcome.
  pose proof (kept_lines_nil out) as Hnil.
  destruct (kept_lines out) as [| l ls] eqn:Hkept.
  - assert (reports_change out = false) as Hno by (apply Hnil; reflexivity).
    rewrite Hno. split; [tauto |]. split.
    + intros [message Hm]. discriminate.
    + discriminate.
  - assert (reports_change out = true) as Hyes.
    { destruct (reports_change out); [reflexivity |].
      destruct Hnil as [_ Hnil]. discriminate (Hnil eq_refl). }
    rewrite Hyes. split; [| split].
    + split; [| discriminate].
      destruct (Text.utf8_valid _); discriminate.
    + reflexivity.
    + intros _ ->. eexists. reflexivity.
Qed.

(** What the three methods do, given the output of the status query: Git
    and Mercurial return exactly when no line is left once the untracked
    ones are dropped; they raise [WorkingDirectoryDirty] only when a line
    is left, and always then if the lines left are well-formed UTF-8. SVN
    drops no line: it returns exactly when the output is empty and raises
    [WorkingDirectoryDirty] exactly when it is not. *)
Lemma assert_nondirty_outcome cls w out fs :
  execute w (status_command cls) (environ w) (files w) = (Exited 0 out, fs) ->
  let r := fst (assert_nondirty cls w) in
  match cls with
  | SVN =>
    (r = Ok tt <-> out = EmptyString) /\ (raises_dirty r <-> out <> EmptyString)
  | _ =>
    (r = Ok tt <-> reports_change out = false)
    /\ (raises_dirty r -> reports_change out = true)
    /\ (reports_change out = true ->
        Text.utf8_valid (Text.join newline (kept_lines out)) = true ->
        raises_dirty r)
  end.
Proof.
  intros Hrun. destruct cls.
  - apply (filtering_assert_nondirty Git "Git working directory is not clean:"
             "git" ["status"; "--porcelain"] w out fs Hrun). reflexivity.
  - apply (filtering_assert_nondirty Mercurial
             "Mercurial working directory is not clean:"
             "hg" ["status"; "-mard"] w out fs Hrun).
    reflexivity.
  - intros r. subst r.
    unfold assert_nondirty, SVN.assert_nondirty, check_output, run, spawn.
    unfold_monad. simpl. simpl in Hrun. rewrite Hrun. simpl.
    destruct out as [| c out']; simpl.
    + split; [tauto |]. split; [intros [m Hm]; discriminate | congruence].
    + split; [split; discriminate |].
      split; [discriminate | intros _; eexists; reflexivity].
Qed.

Lemma splitlines_from_nil line b :
  Text.splitlines_from line b = [] -> line = EmptyString /\ b = EmptyString.
Proof.
  revert line. induction b as [| c b IH]; intros line; cbn [Text.splitlines_from].
  - destruct line; [split; reflexivity | discriminate].
  - destruct (Ascii.eqb c Text.LF); [discriminate |].
    destruct (Ascii.eqb c Text.CR).
    + destruct b as [| d b']; [discriminate |].
      destruct (Ascii.eqb d Text.LF); discriminate.
    + intros H. destruct (IH _ H) as [Hline _].
      destruct line; discriminate Hline.
Qed.

(** For SVN the claim holds of every status output without a line for an
    item that is not under version control, as [svn status -q] prints
    it. *)
Lemma svn_dirty_iff_change w out fs :
  execute w (status_command SVN) (environ w) (files w) = (Exited 0 out, fs) ->
  (forall line, In line (Text.splitlines out) ->
     Text.startswith line "?" = false) ->
  (raises_dirty (fst (assert_nondirty SVN w))
   <-> status_reports_change SVN out = true)
  /\ (status_reports_change SVN out = false ->
      fst (assert_nondirty SVN w) = Ok tt).
Proof.
  intros Hrun Hlines.
  destruct (assert_nondirty_outcome SVN w out fs Hrun) as [Hclean Hdirty].
  assert (status_reports_change SVN out = true <-> out <> EmptyString) as Hiff.
  { cbn [status_reports_change]. split.
    - intros H ->. discriminate H.
    - intros Hout. unfold Text.splitlines in *.
      destruct (Text.splitlines_from EmptyString out) as [| line lines] eqn:E.
      + destruct (splitlines_from_nil _ _ E) as [_ ->]. congruence.
      + cbn [existsb]. rewrite (Hlines line (or_introl eq_refl)). reflexivity. }
  split.
  - rewrite Hiff. exact Hdirty.
  - intros H. apply Hclean.
    destruct out as [| c out']; [reflexivity |].
    assert (status_reports_change SVN (String c out') = true) as Habs
      by (apply Hiff; discriminate).
    congruence.
Qed.

(** For Git and Mercurial it holds whenever the lines kept are well-formed
    UTF-8. *)
Lemma dirty_iff_change_utf8 cls w out fs :
  cls <> SVN ->
  execute w (status_command cls) (environ w) (files w) = (Exited 0 out, fs) ->
  Text.utf8_valid (Text.join newline (kept_lines out)) = true ->
  (raises_dirty (fst (assert_nondirty cls w))
   <-> status_reports_change cls out = true)
  /\ (status_reports_change cls out = false ->
      fst (assert_nondirty cls w) = Ok tt).
Proof.
  intros Hcls Hrun Hvalid.
  pose proof (assert_nondirty_outcome cls w out fs Hrun) as H.
  destruct cls; [| | congruence]; cbn [status_reports_change];
    destruct H as (Hclean & Honly & Hdirty);
    (split; [split; [exact Honly | intros Hc; exact (Hdirty Hc Hvalid)]
            | intros Hc; apply Hclean; exact Hc]).
Qed.

(** C3, where the code departs from it. Git and Mercurial build the
    message of the exception with [bytes.decode()]: whenever the lines
    they keep are not well-formed UTF-8 (a changed file with a name in
    Latin-1, say), the status query reports a changed path that is not
    untracked, yet what [assert_nondirty] raises is [UnicodeDecodeError]
    and not [WorkingDirectoryDirty], so the equivalence of the claim fails
    in that world. *)
Theorem assert_nondirty_decode_error cls w out fs :
  cls <> SVN ->
  execute w (status_command cls) (environ w) (files w) = (Exited 0 out, fs) ->
  Text.utf8_valid (Text.join newline (kept_lines out)) = false ->
  status_reports_change cls out = true
  /\ fst (assert_nondirty cls w) = Raise UnicodeDecodeError
  /\ ~ raises_dirty (fst (assert_nondirty cls w))
  /\ ~ dirty_iff_change cls w.
Proof.
  intros Hcls Hrun Hvalid.
  assert (kept_lines out <> []) as Hkept.
  { intros Hnil. rewrite Hnil in Hvalid. discriminate Hvalid. }
  assert (status_reports_change cls out = true) as Hreports.
  { assert (reports_change out = true) as Hr.
    { destruct (reports_change out) eqn:E; [reflexivity |].
      apply kept_lines_nil in E. contradiction. }
    destruct cls; [exact Hr | exact Hr | congruence]. }
  assert (fst (assert_nondirty cls w) = Raise UnicodeDecodeError) as Hraise.
  { destruct cls; [| | congruence];
      unfold assert_nondirty, Git.assert_nondirty, Mercurial.assert_nondirty,
        check_output, run, spawn;
      unfold_monad; cbn [argv default status_command] in *;
      rewrite Hrun; cbn [Z.eqb fst];
      rewrite raise_if_dirty_outcome;
      (destruct (kept_lines out) as [| l ls]; [congruence |]);
      rewrite Hvalid; reflexivity. }
  assert (~ raises_dirty (fst (assert_nondirty cls w))) as Hnot.
  { rewrite Hraise. intros [message Hm]. discriminate Hm. }
  split; [exact Hreports | split; [exact Hraise | split; [exact Hnot |]]].
  intros Hclaim. destruct (Hclaim out fs Hrun) as [[_ Hdirty] _].
  exact (Hnot (Hdirty Hreports)).
Qed.

Lemma assert_nondirty_decode_error_witness :
  Mercurial <> SVN
  /\ execute latin1_repository (status_command Mercurial)
       (environ latin1_repository) (files latin1_repository)
     = (Exited 0 ("M caf" +:+ String (ascii_of_N 233) ".txt" +:+ newline),
        files latin1_repository)
  /\ Text.utf8_valid
       (Text.join newline
          (kept_lines ("M caf" +:+ String (ascii_of_N 233) ".txt" +:+ newline)))
     = false
  /\ status_reports_change Mercurial
       ("M caf" +:+ String (ascii_of_N 233) ".txt" +:+ newline) = true
  /\ fst (assert_nondirty Mercurial latin1_repository) = Raise UnicodeDecodeError
  /\ ~ dirty_iff_change Mercurial latin1_repository.
Proof.
  assert (Mercurial <> SVN) as Hcls by discriminate.
  destruct (assert_nondirty_decode_error Mercurial latin1_repository
              ("M caf" +:+ String (ascii_of_N 233) ".txt" +:+ newline)
              (files latin1_repository) Hcls eq_refl eq_refl)
    as (Hreports & Hraise & _ & Hclaim).
  split; [exact Hcls | split; [reflexivity | split; [reflexivity |]]].
  split; [exact Hreports | split; [exact Hraise | exact Hclaim]].
Defined.

(** A status output of Git that holds untracked entries only lets the
    call return. *)
Lemma git_untracked_only_is_clean w fs :
  execute w (status_command Git) (environ w) (files w)
  = (Exited 0 ("?? notes.txt" +:+ newline), fs) ->
  fst (assert_nondirty Git w) = Ok tt.
Proof.
  intros Hrun.
  apply (proj1 (filtering_assert_nondirty Git
                  "Git working directory is not clean:"
                  "git" ["status"; "--porcelain"] w _ fs Hrun eq_refl)).
  reflexivity.
Qed.

(** ** The tag-info parser *)

Lemma all_app p a b : Text.all p (a +:+ b) = Text.all p a && Text.all p b.
Proof.
  induction a as [| c a IH]; simpl; [reflexivity |].
  rewrite IH. apply andb_assoc.
Qed.

Lemma all_impl (p q : ascii -> bool) s :
  (forall c, p c = true -> q c = true) ->
  Text.all p s = true -> Text.all q s = true.
Proof.
  intros Hpq. induction s as [| c s IH]; simpl; [reflexivity |].
  intros [Hc Hs]%andb_true_iff. rewrite (Hpq c Hc), (IH Hs). reflexivity.
Qed.

(** ASCII text is well-formed UTF-8. *)
Lemma utf8_valid_ascii s :
  Text.all (Text.in_range 0 127) s = true -> Text.utf8_valid s = true.
Proof.
  induction s as [| c s IH]; simpl; [reflexivity |].
  intros [Hc Hs]%andb_true_iff. rewrite Hc. exact (IH Hs).
Qed.

Lemma split_without_sep sep s :
  Text.all (fun c => negb (Ascii.eqb c sep)) s = true ->
  Text.split sep s = [s].
Proof.
  induction s as [| c s IH]; simpl; [reflexivity |].
  intros [Hc Hs]%andb_true_iff. apply negb_true_iff in Hc.
  rewrite Hc, (IH Hs). reflexivity.
Qed.

Lemma split_app sep a b :
  Text.all (fun c => negb (Ascii.eqb c sep)) a = true ->
  Text.split sep (a +:+ String sep b) = a :: Text.split sep b.
Proof.
  induction a as [| c a IH]; simpl.
  - intros _. rewrite Ascii.eqb_refl. reflexivity.
  - intros [Hc Ha]%andb_true_iff. apply negb_true_iff in Hc.
    rewrite Hc, (IH Ha). reflexivity.
Qed.

Lemma hex_is_ascii c : is_hex c = true -> Text.in_range 0 127 c = true.
Proof.
  unfold is_hex, Text.is_digit, Text.in_range.
  intros H. apply andb_true_iff. split; [apply N.leb_le; lia |].
  apply N.leb_le.
  repeat (apply orb_true_iff in H; destruct H as [H | H]);
    apply andb_true_iff in H; destruct H as [_ H]; apply N.leb_le in H; lia.
Qed.

Lemma hex_is_not c d :
  is_hex d = false -> is_hex c = true -> negb (Ascii.eqb c d) = true.
Proof.
  intros Hd Hc. apply negb_true_iff. apply Ascii.eqb_neq.
  intros ->. congruence.
Qed.

Lemma chars_visible s :
  Text.all visible s = true -> Text.chars s = singletons s.
Proof.
  induction s as [| c s IH]; simpl; [reflexivity |].
  intros [_ Hs]%andb_true_iff. rewrite (IH Hs).
  destruct s as [| d s']; simpl; [reflexivity |].
  simpl in Hs. apply andb_true_iff in Hs. destruct Hs as [Hd _].
  assert (Text.continuation d = false) as ->; [| reflexivity].
  unfold visible, Text.continuation, Text.in_range in *.
  apply andb_true_iff in Hd. destruct Hd as [_ Hd]. apply N.leb_le in Hd.
  apply andb_false_iff. left. apply N.leb_gt. lia.
Qed.

Lemma dropwhile_none {A} (p : A -> bool) l :
  forallb (fun x => negb (p x)) l = true -> Text.dropwhile p l = l.
Proof.
  destruct l as [| x l]; simpl; [reflexivity |].
  intros [Hx _]%andb_true_iff. apply negb_true_iff in Hx. rewrite Hx. reflexivity.
Qed.

Lemma singletons_no_space s :
  Text.all visible s = true ->
  forallb (fun ch => negb (Text.isspace ch)) (singletons s) = true.
Proof.
  induction s as [| c s IH]; simpl; [reflexivity |].
  intros [Hc Hs]%andb_true_iff. rewrite (IH Hs), andb_true_r.
  unfold visible, Text.in_range in *.
  apply andb_true_iff in Hc. destruct Hc as [Hlo Hhi].
  apply N.leb_le in Hlo. apply negb_true_iff. apply orb_false_iff.
  split; apply andb_false_iff; right; apply N.leb_gt; lia.
Qed.

Lemma join_singletons s : Text.join "" (singletons s) = s.
Proof.
  induction s as [| c s IH]; simpl; [reflexivity |].
  destruct (singletons s) eqn:E.
  - destruct s; [reflexivity | discriminate].
  - simpl in IH |- *. rewrite IH. reflexivity.
Qed.

(** [strip] leaves a string of visible ASCII characters as it is. *)
Lemma strip_visible s : Text.all visible s = true -> Text.strip s = s.
Proof.
  intros Hs. unfold Text.strip.
  rewrite (chars_visible s Hs).
  rewrite (dropwhile_none _ _ (singletons_no_space s Hs)).
  rewrite dropwhile_none.
  - rewrite rev_involutive. apply join_singletons.
  - rewrite forallb_forall. intros x Hx. apply in_rev in Hx.
    pose proof (singletons_no_space s Hs) as Hall.
    rewrite forallb_forall in Hall. exact (Hall x Hx).
Qed.

Lemma hex_is_visible c : is_hex c = true -> visible c = true.
Proof.
  unfold is_hex, visible, Text.is_digit, Text.in_range.
  intros H.
  repeat (apply orb_true_iff in H; destruct H as [H | H]);
    apply andb_true_iff in H; destruct H as [Hlo Hhi];
    apply N.leb_le in Hlo; apply N.leb_le in Hhi;
    apply andb_true_iff; split; apply N.leb_le; lia.
Qed.

Lemma chars_ascii s :
  Text.all (Text.in_range 0 127) s = true -> Text.chars s = singletons s.
Proof.
  induction s as [| c s IH]; cbn [Text.chars singletons Text.all]; [reflexivity |].
  intros [_ Hs]%andb_true_iff. rewrite (IH Hs).
  destruct s as [| d s']; [reflexivity |].
  cbn [singletons]. cbn [Text.all] in Hs.
  apply andb_true_iff in Hs. destruct Hs as [Hd _].
  assert (Text.continuation d = false) as ->; [| reflexivity].
  unfold Text.continuation, Text.in_range in *.
  apply andb_true_iff in Hd. destruct Hd as [_ Hd]. apply N.leb_le in Hd.
  apply andb_false_iff. left. apply N.leb_gt. lia.
Qed.

Lemma singletons_app a b : singletons (a +:+ b) = singletons a ++ singletons b.
Proof.
  induction a as [| c a IH]; [reflexivity |].
  change (String c a +:+ b) with (String c (a +:+ b)).
  cbn [singletons app]. rewrite IH. reflexivity.
Qed.

Lemma visible_is_ascii c : visible c = true -> Text.in_range 0 127 c = true.
Proof.
  unfold visible, Text.in_range. intros [_ H]%andb_true_iff.
  apply N.leb_le in H. apply andb_true_iff.
  split; apply N.leb_le; lia.
Qed.

Lemma bspace_is_ascii c : Text.bspace c = true -> Text.in_range 0 127 c = true.
Proof.
  unfold Text.bspace, Text.in_range. intros H.
  apply andb_true_iff. split; [apply N.leb_le; lia |]. apply N.leb_le.
  apply orb_true_iff in H. destruct H as [H | H].
  - apply andb_true_iff in H. destruct H as [_ H]. apply N.leb_le in H. lia.
  - apply N.eqb_eq in H. lia.
Qed.

Lemma bspace_is_space c :
  Text.bspace c = true -> Text.isspace (String c EmptyString) = true.
Proof.
  unfold Text.bspace, Text.isspace, Text.in_range. intros H.
  apply orb_true_iff in H. destruct H as [H | H].
  - rewrite H. reflexivity.
  - apply N.eqb_eq in H. rewrite H. apply orb_true_r.
Qed.

Lemma bspace_no_dash c : Text.bspace c = true -> negb (Ascii.eqb c "-") = true.
Proof.
  intros H. apply negb_true_iff. apply Ascii.eqb_neq. intros ->. discriminate H.
Qed.

Lemma singletons_all_space ending :
  Text.all Text.bspace ending = true ->
  forallb Text.isspace (singletons ending) = true.
Proof.
  induction ending as [| c ending IH]; cbn [Text.all singletons forallb];
    [reflexivity |].
  intros [Hc He]%andb_true_iff.
  rewrite (bspace_is_space c Hc), (IH He). reflexivity.
Qed.

Lemma dropwhile_app_all {A} (p : A -> bool) l1 l2 :
  forallb p l1 = true -> Text.dropwhile p (l1 ++ l2) = Text.dropwhile p l2.
Proof.
  induction l1 as [| x l1 IH]; cbn [forallb app Text.dropwhile]; [reflexivity |].
  intros [Hx Hl]%andb_true_iff. rewrite Hx. exact (IH Hl).
Qed.

(** [strip] removes the white space that follows visible ASCII text, the
    line end that closes the output of a command for one. *)
Lemma strip_visible_ending s ending :
  Text.all visible s = true ->
  Text.all Text.bspace ending = true ->
  Text.strip (s +:+ ending) = s.
Proof.
  intros Hs Hend. unfold Text.strip.
  pose proof (singletons_no_space s Hs) as Hkeep.
  pose proof (singletons_all_space ending Hend) as Hdrop.
  rewrite chars_ascii.
  2:{ rewrite all_app, (all_impl _ _ s visible_is_ascii Hs),
        (all_impl _ _ ending bspace_is_ascii Hend). reflexivity. }
  rewrite singletons_app.
  assert (forallb (fun ch => negb (Text.isspace ch)) (rev (singletons s)) = true)
    as Hkeep'.
  { rewrite forallb_forall. intros x Hx. apply in_rev in Hx.
    rewrite forallb_forall in Hkeep. exact (Hkeep x Hx). }
  assert (forallb Text.isspace (rev (singletons ending)) = true) as Hdrop'.
  { rewrite forallb_forall. intros x Hx. apply in_rev in Hx.
    rewrite forallb_forall in Hdrop. exact (Hdrop x Hx). }
  destruct s as [| c s'].
  - cbn [singletons app].
    rewrite <- (app_nil_r (singletons ending)).
    rewrite (dropwhile_app_all _ _ [] Hdrop). reflexivity.
  - assert (Text.dropwhile Text.isspace (singletons (String c s') ++ singletons ending)
            = singletons (String c s') ++ singletons ending) as ->.
    { cbn [singletons app Text.dropwhile].
      cbn [singletons forallb] in Hkeep.
      apply andb_true_iff in Hkeep. destruct Hkeep as [Hc _].
      apply negb_true_iff in Hc. rewrite Hc. reflexivity. }
    rewrite rev_app_distr.
    rewrite (dropwhile_app_all _ _ _ Hdrop').
    rewrite (dropwhile_none _ _ Hkeep').
    rewrite rev_involutive. apply join_singletons.
Qed.

(** A commit id keeps all its characters under [lstrip("g")]. *)
Lemma lstrip_g_hex sha :
  Text.all is_hex sha = true -> Text.lstrip "g" sha = sha.
Proof.
  destruct sha as [| c sha]; simpl; [reflexivity |].
  intros [Hc _]%andb_true_iff.
  rewrite orb_false_r.
  assert (Ascii.eqb c "g" = false) as ->; [| reflexivity].
  apply negb_true_iff. apply (hex_is_not c "g"); [reflexivity | exact Hc].
Qed.

(** The pieces of the describe output of the claim, with what follows
    the dirty marker. *)
Lemma split_dirty_describe sha ending :
  Text.all is_hex sha = true ->
  Text.all Text.bspace ending = true ->
  Text.split "-" ("v1.2.3-0-g" +:+ sha +:+ "-dirty" +:+ ending)
  = ["v1.2.3"; "0"; "g" +:+ sha; "dirty" +:+ ending].
Proof.
  intros Hsha Hend.
  change ("v1.2.3-0-g" +:+ sha +:+ "-dirty" +:+ ending)
    with ("v1.2.3" +:+ String "-" ("0" +:+ String "-"
            (String "g" sha +:+ String "-" ("dirty" +:+ ending)))).
  rewrite (split_app "-" "v1.2.3") by reflexivity.
  rewrite (split_app "-" "0") by reflexivity.
  rewrite (split_app "-" (String "g" sha)).
  - rewrite (split_without_sep "-" ("dirty" +:+ ending)); [reflexivity |].
    rewrite all_app. rewrite (all_impl _ _ ending bspace_no_dash Hend).
    reflexivity.
  - simpl. apply (all_impl is_hex); [| exact Hsha].
    intros c. apply hex_is_not. reflexivity.
Qed.

(** The parser on these pieces: the last one, stripped, is the dirty
    marker. *)
Lemma describe_info_dirty sha ending :
  Text.all is_hex sha = true ->
  Text.all Text.bspace ending = true ->
  Git.describe_info ["v1.2.3"; "0"; "g" +:+ sha; "dirty" +:+ ending]
  = Ok (<["current_version" := PyStr "1.2.3"]>
          (<["distance_to_latest_tag" := PyInt 0]>
             (<["commit_sha" := PyStr sha]>
                (<["dirty" := PyBool true]> ∅)))).
Proof.
  intros Hsha Hend. unfold Git.describe_info. unfold_monad.
  change (last ["v1.2.3"; "0"; "g" +:+ sha; "dirty" +:+ ending])
    with (Some ("dirty" +:+ ending)).
  cbn [or_raise].
  rewrite (strip_visible_ending "dirty" ending eq_refl Hend).
  change (String.eqb "dirty" "dirty") with true. cbv iota.
  change (removelast ["v1.2.3"; "0"; "g" +:+ sha; "dirty" +:+ ending])
    with ["v1.2.3"; "0"; "g" +:+ sha].
  change (pop ["v1.2.3"; "0"; "g" +:+ sha])
    with (Ok ("g" +:+ sha, ["v1.2.3"; "0"])).
  cbv beta iota.
  change (Text.lstrip "g" ("g" +:+ sha)) with (Text.lstrip "g" sha).
  rewrite (lstrip_g_hex sha Hsha). reflexivity.
Qed.

(** C4. When [git update-index] succeeds and [git describe] prints
    ["v1.2.3-0-g<sha>-dirty"] for a hexadecimal commit id [<sha>], closed
    by the line end [git] puts after it (or by any other run of ASCII
    white space, or by nothing), [Git.latest_tag_info] returns the
    dictionary with [dirty: True], [commit_sha: <sha>],
    [distance_to_latest_tag: 0] and [current_version: "1.2.3"]. *)
Theorem latest_tag_info_dirty_tag w sha ending out1 fs1 fs2 :
  Text.all is_hex sha = true ->
  Text.all Text.bspace ending = true ->
  execute w ["git"; "update-index"; "--refresh"] (environ w) (files w)
  = (Exited 0 out1, fs1) ->
  execute w Git.describe_command (environ w) fs1
  = (Exited 0 ("v1.2.3-0-g" +:+ sha +:+ "-dirty" +:+ ending), fs2) ->
  fst (latest_tag_info Git w)
  = Ok (<["current_version" := PyStr "1.2.3"]>
          (<["distance_to_latest_tag" := PyInt 0]>
             (<["commit_sha" := PyStr sha]>
                (<["dirty" := PyBool true]> ∅)))).
Proof.
  intros Hsha Hend Hupd Hdesc.
  assert (Text.decode ("v1.2.3-0-g" +:+ sha +:+ "-dirty" +:+ ending)
          = Some ("v1.2.3-0-g" +:+ sha +:+ "-dirty" +:+ ending)) as Hdec.
  { unfold Text.decode. rewrite utf8_valid_ascii; [reflexivity |].
    rewrite !all_app. rewrite (all_impl _ _ sha hex_is_ascii Hsha).
    rewrite (all_impl _ _ ending bspace_is_ascii Hend). reflexivity. }
  unfold Git.describe_command in Hdesc.
  unfold latest_tag_info, Git.latest_tag_info, try_except, check_output, run, spawn.
  unfold Git.describe_command. unfold_monad.
  cbn [argv default environ files started execute set_started set_files].
  rewrite Hupd.
  cbn [Z.eqb default environ files started execute set_started set_files].
  rewrite Hdesc. cbn [Z.eqb or_raise].
  rewrite Hdec. cbn [or_raise].
  rewrite (split_dirty_describe sha ending Hsha Hend).
  rewrite (describe_info_dirty sha ending Hsha Hend). reflexivity.
Qed.

Lemma latest_tag_info_dirty_tag_witness :
  Text.all is_hex sample_sha = true
  /\ Text.all Text.bspace newline = true
  /\ execute git_checkout ["git"; "update-index"; "--refresh"]
       (environ git_checkout) (files git_checkout)
     = (Exited 0 EmptyString, files git_checkout)
  /\ execute git_checkout Git.describe_command (environ git_checkout)
       (files git_checkout)
     = (Exited 0 ("v1.2.3-0-g" +:+ sample_sha +:+ "-dirty" +:+ newline),
        files git_checkout)
  /\ fst (latest_tag_info Git git_checkout)
     = Ok (<["current_version" := PyStr "1.2.3"]>
             (<["distance_to_latest_tag" := PyInt 0]>
                (<["commit_sha" := PyStr sample_sha]>
                   (<["dirty" := PyBool true]> ∅)))).
Proof.
  split; [reflexivity | split; [reflexivity |]].
  split; [reflexivity | split; [reflexivity |]].
  apply (latest_tag_info_dirty_tag git_checkout sample_sha newline EmptyString
           (files git_checkout) (files git_checkout)); reflexivity.
Defined.

(** *** Formatting a version as a tag and parsing it back *)

(** What the parser reads off the describe string of the tag ["v" + v]:
    [v] without all the ["v"] characters it starts with. *)
Lemma parsed_version_of_tag v distance n sha :
  Text.all (fun c => negb (is_dash c)) v = true ->
  Text.all (fun c => negb (is_dash c)) distance = true ->
  Text.int distance = Some n ->
  Text.all is_hex sha = true ->
  parsed_version (describe_string ("v" +:+ v) distance sha)
  = Ok (PyStr (Text.lstrip "v" v)).
Proof.
  intros Hv Hd Hn Hsha.
  assert (Text.split "-" (describe_string ("v" +:+ v) distance sha)
          = ["v" +:+ v; distance; "g" +:+ sha]) as Hsplit.
  { unfold describe_string.
    change (("v" +:+ v) +:+ "-" +:+ distance +:+ "-g" +:+ sha)
      with (String "v" v +:+ String "-" (distance +:+ String "-" (String "g" sha))).
    rewrite (split_app "-" (String "v" v)) by exact Hv.
    rewrite (split_app "-" distance) by exact Hd.
    rewrite split_without_sep; [reflexivity |].
    simpl. apply (all_impl is_hex); [| exact Hsha].
    intros c. apply hex_is_not. reflexivity. }
  unfold parsed_version. rewrite Hsplit.
  unfold Git.describe_info, pop, getitem. unfold_monad.
  cbn [last or_raise removelast].
  assert (Text.strip ("g" +:+ sha) = "g" +:+ sha) as ->.
  { apply strip_visible. simpl. apply (all_impl is_hex); [| exact Hsha].
    exact hex_is_visible. }
  change (String.eqb ("g" +:+ sha) "dirty") with false.
  cbn [last or_raise removelast]. rewrite Hn. cbn [or_raise].
  change (Text.lstrip "g" ("g" +:+ sha)) with (Text.lstrip "g" sha).
  change (Text.lstrip "v" (Text.join "-" ["v" +:+ v])) with (Text.lstrip "v" v).
  rewrite lookup_insert_eq. reflexivity.
Qed.

(** The round trip holds for the versions that do not start with ["v"]. *)
Lemma tag_roundtrip v distance n sha :
  Text.all (fun c => negb (is_dash c)) v = true ->
  Text.startswith v "v" = false ->
  Text.all (fun c => negb (is_dash c)) distance = true ->
  Text.int distance = Some n ->
  Text.all is_hex sha = true ->
  parsed_version (describe_string ("v" +:+ v) distance sha) = Ok (PyStr v).
Proof.
  intros Hv Hstart Hd Hn Hsha.
  rewrite (parsed_version_of_tag v distance n sha Hv Hd Hn Hsha).
  destruct v as [| c v']; [reflexivity |].
  assert (Ascii.eqb "v" c = false) as Hc.
  { destruct (Ascii.eqb "v" c) eqn:E; [| reflexivity].
    apply Ascii.eqb_eq in E. subst c. cbn in Hstart. discriminate Hstart. }
  cbn [Text.lstrip Text.mem]. rewrite orb_false_r, Ascii.eqb_sym, Hc.
  reflexivity.
Qed.

(** C5, where the code departs from it. The version ["v1.2.3"] holds no
    ["-"]; formatted as the tag ["vv1.2.3"] and parsed back from the
    describe string ["vv1.2.3-0-g<sha>"], it comes out as ["1.2.3"]:
    [lstrip("v")] removes both ["v"] characters. *)
Theorem tag_roundtrip_loses_leading_v :
  Text.all (fun c => negb (is_dash c)) "v1.2.3" = true
  /\ parsed_version (describe_string ("v" +:+ "v1.2.3") "0" sample_sha)
     = Ok (PyStr "1.2.3")
  /\ parsed_version (describe_string ("v" +:+ "v1.2.3") "0" sample_sha)
     <> Ok (PyStr "v1.2.3").
Proof. split; [reflexivity | split; [reflexivity | discriminate]]. Qed.

(** ** The URLs of a Subversion working copy *)

Lemma rindex_none s sub :
  Text.rindex s sub = None -> forall j, occurs_at s sub j = false.
Proof.
  induction s as [| c s IH]; cbn [Text.rindex]; intros H j.
  - destruct (Text.startswith EmptyString sub) eqn:E; [discriminate |].
    destruct j; [exact E | reflexivity].
  - destruct (Text.rindex s sub) as [i |]; [discriminate |].
    destruct (Text.startswith (String c s) sub) eqn:E; [discriminate |].
    destruct j as [| j]; [exact E |]. cbn [occurs_at]. apply IH. reflexivity.
Qed.

Lemma rindex_occurs s sub i :
  Text.rindex s sub = Some i -> occurs_at s sub i = true.
Proof.
  revert i. induction s as [| c s IH]; cbn [Text.rindex]; intros i H.
  - destruct (Text.startswith EmptyString sub) eqn:E; [| discriminate].
    injection H as <-. exact E.
  - destruct (Text.rindex s sub) as [i' |].
    + injection H as <-. cbn [occurs_at]. apply IH. reflexivity.
    + destruct (Text.startswith (String c s) sub) eqn:E; [| discriminate].
      injection H as <-. exact E.
Qed.

Lemma rindex_rightmost s sub i :
  Text.rindex s sub = Some i -> rightmost_at s sub i.
Proof.
  intros H. split; [exact (rindex_occurs s sub i H) |].
  revert i H. induction s as [| c s IH]; cbn [Text.rindex]; intros i H j Hj.
  - destruct j; [lia | discriminate].
  - destruct (Text.rindex s sub) as [i' |] eqn:E.
    + injection H as <-. destruct j as [| j]; [lia |].
      cbn [occurs_at] in Hj. pose proof (IH i' eq_refl j Hj). lia.
    + destruct j as [| j]; [lia |].
      cbn [occurs_at] in Hj. rewrite (rindex_none s sub E j) in Hj. discriminate.
Qed.

Lemma rightmost_rindex s sub i :
  rightmost_at s sub i -> Text.rindex s sub = Some i.
Proof.
  intros [Hocc Hmax].
  destruct (Text.rindex s sub) as [i' |] eqn:E.
  - destruct (rindex_rightmost s sub i' E) as [Hocc' Hmax'].
    pose proof (Hmax i' Hocc'). pose proof (Hmax' i Hocc).
    f_equal. lia.
  - rewrite (rindex_none s sub E i) in Hocc. discriminate.
Qed.

Lemma take_all n s : (String.length s <= n)%nat -> Text.take n s = s.
Proof.
  revert n. induction s as [| c s IH]; intros n Hn.
  - destruct n; reflexivity.
  - destruct n as [| n]; simpl in Hn; [lia |].
    simpl. rewrite IH by lia. reflexivity.
Qed.

(** A slice up to a bound that is not negative is a prefix. *)
Lemma slice_to_take s (n : nat) : Text.slice_to s (Z.of_nat n) = Text.take n s.
Proof.
  unfold Text.slice_to.
  assert ((Z.of_nat n <? 0) = false) as -> by (apply Z.ltb_ge; lia).
  destruct (Nat.le_gt_cases n (String.length s)) as [Hle | Hgt].
  - rewrite Z.min_l by lia. rewrite Nat2Z.id. reflexivity.
  - rewrite Z.min_r by lia. rewrite Nat2Z.id.
    rewrite !take_all by lia. reflexivity.
Qed.

(** The loop of [repo_urls] passes over the folders that do not occur. *)
Lemma locate_skips url earlier rest :
  (forall f, In f earlier -> forall j, occurs_at url f j = false) ->
  SVN.locate url (earlier ++ rest) = SVN.locate url rest.
Proof.
  induction earlier as [| f earlier IH]; intros Habsent; [reflexivity |].
  cbn [app SVN.locate].
  destruct (Text.rindex url f) as [i |] eqn:E.
  - pose proof (rindex_occurs url f i E) as Hocc.
    rewrite (Habsent f (or_introl eq_refl) i) in Hocc. discriminate.
  - apply IH. intros g Hg. apply Habsent. right. exact Hg.
Qed.

(** What the loop computes. The folders are tried in the order [branch],
    [branches], [trunk], and the first one that occurs in the URL decides,
    at its rightmost occurrence: [root] is the URL up to the end of that
    occurrence and, when the occurrence does not open the URL, [base] is
    the URL up to one character before it. When no folder occurs, [base]
    and [root] are [None] and [is_usable] answers [False]. For
    [".../project/trunk/sub"], [root] is [".../project/trunk"] and [base]
    is [".../project"]. *)
Lemma svn_url_derivation url :
  (forall earlier folder later idx,
     SVN.folders = earlier ++ folder :: later ->
     (forall f, In f earlier -> forall j, occurs_at url f j = false) ->
     rightmost_at url folder idx ->
     root (SVN.urls_of (Some url))
     = Some (Text.take (idx + String.length folder) url)
     /\ current (SVN.urls_of (Some url)) = Some url
     /\ ((0 < idx)%nat ->
         base (SVN.urls_of (Some url)) = Some (Text.take (idx - 1) url)))
  /\ ((forall f, In f SVN.folders -> forall j, occurs_at url f j = false) ->
      SVN.urls_of (Some url) = mkRepoUrls None None (Some url)
      /\ forall w, fst (SVN.current_url w) = Ok (Some url) ->
                   fst (is_usable SVN w) = Ok false)
  /\ SVN.urls_of (Some ".../project/trunk/sub")
     = mkRepoUrls (Some ".../project") (Some ".../project/trunk")
                  (Some ".../project/trunk/sub").
Proof.
  split; [| split; [| reflexivity]].
  - intros earlier folder later idx Hfolders Habsent Hright.
    unfold SVN.urls_of. rewrite Hfolders.
    rewrite (locate_skips url earlier (folder :: later) Habsent).
    cbn [SVN.locate]. rewrite (rightmost_rindex url folder idx Hright).
    cbn [root current base].
    split; [| split; [reflexivity |]].
    + rewrite <- Nat2Z.inj_add. rewrite slice_to_take. reflexivity.
    + intros Hpos.
      replace (Z.of_nat idx - 1) with (Z.of_nat (idx - 1)) by lia.
      rewrite slice_to_take. reflexivity.
  - intros Habsent.
    assert (SVN.urls_of (Some url) = mkRepoUrls None None (Some url)) as Hurls.
    { unfold SVN.urls_of.
      rewrite <- (app_nil_r SVN.folders).
      rewrite (locate_skips url SVN.folders [] Habsent). reflexivity. }
    split; [exact Hurls |].
    intros w Hurl.
    unfold is_usable, SVN.is_usable, SVN.repo_urls. unfold_monad.
    destruct (SVN.current_url w) as [r w']. simpl in Hurl. subst r.
    rewrite Hurls. reflexivity.
Qed.

Lemma svn_url_derivation_under_trunk :
  SVN.folders = ["branch"; "branches"] ++ "trunk" :: []
  /\ rightmost_at trunk_url "trunk" 32
  /\ root (SVN.urls_of (Some trunk_url))
     = Some "https://svn.example.org/project/trunk"
  /\ base (SVN.urls_of (Some trunk_url))
     = Some "https://svn.example.org/project".
Proof.
  assert (rightmost_at trunk_url "trunk" 32) as Hright
    by (apply rindex_rightmost; reflexivity).
  assert (forall f, In f ["branch"; "branches"] ->
          forall j, occurs_at trunk_url f j = false) as Habsent.
  { intros f [<- | [<- | []]]; apply rindex_none; reflexivity. }
  destruct (proj1 (svn_url_derivation trunk_url)
              ["branch"; "branches"] "trunk" [] 32%nat eq_refl Habsent Hright)
    as (Hroot & _ & Hbase).
  split; [reflexivity | split; [exact Hright | split]].
  - exact Hroot.
  - apply Hbase. lia.
Qed.

Lemma startswith_app s p q :
  Text.startswith s (p +:+ q) = true -> Text.startswith s p = true.
Proof.
  revert s. induction p as [| c p IH]; intros s H; [reflexivity |].
  cbn in H |- *. destruct s as [| d s]; [discriminate |].
  apply andb_true_iff in H. destruct H as [Hc Hs].
  rewrite Hc. exact (IH s Hs).
Qed.

Lemma occurs_at_app s p q i :
  occurs_at s (p +:+ q) i = true -> occurs_at s p i = true.
Proof.
  revert s. induction i as [| i IH]; intros s H.
  - destruct s; exact (startswith_app _ p q H).
  - destruct s as [| c s]; [discriminate |]. exact (IH s H).
Qed.

Lemma startswith_take s sub :
  Text.startswith s sub = true -> Text.take (String.length sub) s = sub.
Proof.
  revert s. induction sub as [| c sub IH]; intros s H.
  - destruct s; reflexivity.
  - destruct s as [| d s]; [discriminate |].
    cbn in H. apply andb_true_iff in H. destruct H as [Hc Hs].
    apply Ascii.eqb_eq in Hc. subst d.
    cbn [String.length Text.take]. rewrite (IH s Hs). reflexivity.
Qed.

Lemma occurs_at_take s sub i :
  occurs_at s sub i = true ->
  Text.take (i + String.length sub) s = Text.take i s +:+ sub.
Proof.
  revert s. induction i as [| i IH]; intros s H.
  - assert (Text.startswith s sub = true) as Hs by (destruct s; exact H).
    rewrite Nat.add_0_l, (startswith_take s sub Hs).
    destruct s; reflexivity.
  - destruct s as [| c s]; [discriminate |].
    cbn [Nat.add Text.take]. rewrite (IH s H). reflexivity.
Qed.

Lemma append_inj_l p a b : p +:+ a = p +:+ b -> a = b.
Proof.
  induction p as [| c p IH]; intros H; [exact H |].
  apply IH. injection H as H. exact H.
Qed.

(** C6, where the code departs from it. Take a URL in which the
    occurrence of a layout marker that is furthest to the right is one of
    [branches], at index [idx], as for a working copy on a branch under
    [.../project/branches].  In the words of the specification [root] is
    the URL up to the end of that marker, [.../project/branches].  The
    loop tries [branch] first, which occurs wherever [branches] does, and
    stops there: [root] is the URL up to [.../project/branch], two
    characters short; [base] is the same either way. *)
Theorem svn_root_under_branches url idx :
  rightmost_at url "branches" idx ->
  (forall folder j, In folder SVN.folders ->
     occurs_at url folder j = true -> (j <= idx)%nat) ->
  root (spec_urls_of url) = Some (Text.take idx url +:+ "branches")
  /\ root (SVN.urls_of (Some url)) = Some (Text.take idx url +:+ "branch")
  /\ root (SVN.urls_of (Some url)) <> root (spec_urls_of url)
  /\ base (SVN.urls_of (Some url)) = base (spec_urls_of url).
Proof.
  intros Hright Hmax.
  pose proof (proj1 Hright) as Hocc.
  assert (occurs_at url "branch" idx = true) as Hocc'
    by exact (occurs_at_app url "branch" "es" idx Hocc).
  assert (Text.rindex url "branches" = Some idx) as Ebranches
    by exact (rightmost_rindex url "branches" idx Hright).
  assert (Text.rindex url "branch" = Some idx) as Ebranch.
  { apply rightmost_rindex. split; [exact Hocc' |].
    intros j Hj. apply (Hmax "branch" j); [left; reflexivity | exact Hj]. }
  assert (rightmost_marker url SVN.folders = Some (idx, "branches")) as Hspec.
  { unfold SVN.folders. cbn [rightmost_marker].
    rewrite Ebranch, Ebranches.
    destruct (Text.rindex url "trunk") as [k |] eqn:Etrunk.
    - assert (k <= idx)%nat as Hk.
      { apply (Hmax "trunk" k); [right; right; left; reflexivity |].
        exact (rindex_occurs url "trunk" k Etrunk). }
      assert ((k <? idx)%nat
              || ((k =? idx)%nat
                  && (String.length "trunk" <=? String.length "branches")%nat)
              = true) as ->.
      { destruct (Nat.ltb_spec k idx) as [Hlt | Hge]; [reflexivity |].
        assert (k = idx) as -> by lia. rewrite Nat.eqb_refl. reflexivity. }
      rewrite Nat.ltb_irrefl, Nat.eqb_refl. reflexivity.
    - rewrite Nat.ltb_irrefl, Nat.eqb_refl. reflexivity. }
  assert (root (spec_urls_of url) = Some (Text.take idx url +:+ "branches"))
    as Hroot.
  { unfold spec_urls_of. rewrite Hspec. cbn [root].
    rewrite <- Nat2Z.inj_add, slice_to_take.
    rewrite (occurs_at_take url "branches" idx Hocc). reflexivity. }
  assert (root (SVN.urls_of (Some url)) = Some (Text.take idx url +:+ "branch"))
    as Hroot'.
  { unfold SVN.urls_of, SVN.folders. cbn [SVN.locate]. rewrite Ebranch.
    cbn [root].
    rewrite <- Nat2Z.inj_add, slice_to_take.
    rewrite (occurs_at_take url "branch" idx Hocc'). reflexivity. }
  split; [exact Hroot | split; [exact Hroot' | split]].
  - rewrite Hroot, Hroot'. intros [= H].
    apply append_inj_l in H. discriminate H.
  - unfold spec_urls_of. rewrite Hspec.
    unfold SVN.urls_of, SVN.folders. cbn [SVN.locate]. rewrite Ebranch.
    reflexivity.
Qed.

Lemma svn_root_under_branches_witness :
  rightmost_at branches_url "branches" 32
  /\ (forall folder j, In folder SVN.folders ->
        occurs_at branches_url folder j = true -> (j <= 32)%nat)
  /\ root (spec_urls_of branches_url)
     = Some "https://svn.example.org/project/branches"
  /\ root (SVN.urls_of (Some branches_url))
     = Some "https://svn.example.org/project/branch"
  /\ base (SVN.urls_of (Some branches_url))
     = Some "https://svn.example.org/project".
Proof.
  assert (rightmost_at branches_url "branches" 32) as Hright
    by (apply rindex_rightmost; reflexivity).
  assert (forall folder j, In folder SVN.folders ->
            occurs_at branches_url folder j = true -> (j <= 32)%nat) as Hmax.
  { intros folder j [<- | [<- | [<- | []]]] Hj.
    - exact (proj2 (rindex_rightmost branches_url "branch" 32 eq_refl) j Hj).
    - exact (proj2 Hright j Hj).
    - rewrite (rindex_none branches_url "trunk" eq_refl j) in Hj. discriminate Hj. }
  destruct (svn_root_under_branches branches_url 32 Hright Hmax)
    as (Hspec & Hroot & _ & _).
  split; [exact Hright | split; [exact Hmax | split; [exact Hspec |]]].
  split; [exact Hroot | reflexivity].
Defined.

(** The order of the list decides in a second way: in [nested_url] the
    occurrence furthest to the right is that of [trunk], but [branch],
    tried first, is the folder the URLs are cut at. *)
Lemma svn_urls_first_marker_not_rightmost :
  SVN.urls_of (Some nested_url)
  = mkRepoUrls (Some "https://svn.example.org")
               (Some "https://svn.example.org/branch") (Some nested_url)
  /\ spec_urls_of nested_url
     = mkRepoUrls (Some "https://svn.example.org/branch/legacy")
                  (Some "https://svn.example.org/branch/legacy/trunk")
                  (Some nested_url)
  /\ SVN.urls_of (Some nested_url) <> spec_urls_of nested_url.
Proof.
  split; [reflexivity | split; [reflexivity |]].
  intros H. vm_compute in H. discriminate H.
Qed.

(** A URL under [branches] is decided by [branch], which it contains. *)
Example svn_urls_under_branches :
  SVN.urls_of (Some "https://svn.example.org/project/branches/feature")
  = mkRepoUrls (Some "https://svn.example.org/project")
               (Some "https://svn.example.org/project/branch")
               (Some "https://svn.example.org/project/branches/feature").
Proof. reflexivity. Qed.

(** * Further properties of the module *)

(** ** Probing *)

(** X1. For Git and Mercurial, [is_usable] answers [True] exactly when the
    probe command exits with code 0; when the command cannot be started it
    answers [False] for the errors ENOENT, EACCES and ENOTDIR and raises
    the [OSError] again for any other. *)
Theorem base_is_usable_outcome cls w o fs :
  cls <> SVN ->
  classes w = module_classes ->
  execute w (probe_command cls) (environ w) (files w) = (o, fs) ->
  fst (is_usable cls w)
  = match o with
    | Exited rc _ => Ok (rc =? 0)
    | NotStarted errno =>
      if (errno =? ENOENT) || (errno =? EACCES) || (errno =? ENOTDIR)
      then Ok false
      else Raise (OSError errno)
    end.
Proof.
  intros Hcls Hclasses Hrun.
  destruct cls; [| | congruence];
    unfold is_usable, BaseVCS.is_usable, try_except, subprocess_call, run, spawn,
      getattr;
    unfold_monad; rewrite Hclasses;
    [change (module_classes !! (class_name Git, "_TEST_USABLE_COMMAND"))
       with (Some (PyList (probe_command Git)))
    |change (module_classes !! (class_name Mercurial, "_TEST_USABLE_COMMAND"))
       with (Some (PyList (probe_command Mercurial)))];
    cbn [argv probe_command default] in *; rewrite Hrun;
    destruct o as [rc out | errno]; cbn [fst];
    try reflexivity;
    destruct ((errno =? ENOENT) || (errno =? EACCES) || (errno =? ENOTDIR));
    reflexivity.
Qed.

Lemma base_is_usable_outcome_witness :
  Git <> SVN
  /\ classes git_checkout = module_classes
  /\ execute git_checkout (probe_command Git) (environ git_checkout)
       (files git_checkout)
     = (Exited 0 (".git" +:+ newline), files git_checkout)
  /\ fst (is_usable Git git_checkout) = Ok true.
Proof.
  split; [discriminate | split; [reflexivity | split; [reflexivity |]]].
  exact (base_is_usable_outcome Git git_checkout _ _
           ltac:(discriminate) eq_refl eq_refl).
Defined.

(** ** Tagging and staging *)

(** X2. A signed tag on Mercurial raises
    [MercurialDoesNotSupportSignedTagsException] whatever the name and
    the message, and nothing else happens: no command is started and the
    world is as before. *)
Theorem mercurial_signed_tag_raises name message w :
  tag Mercurial true name message w
  = (Raise (MercurialDoesNotSupportSignedTagsException
              "Mercurial does not support signed tags."), w).
Proof. reflexivity. Qed.

Lemma git_tag_command_built (sign : bool) (name : str) (message : option str) :
  (let command := ["git"; "tag"; name] in
   let command := if sign then command ++ ["--sign"] else command in
   if truthy message then command ++ ["--message"; default EmptyString message]
   else command)
  = git_tag_command sign name message.
Proof.
  unfold git_tag_command.
  destruct sign; destruct message as [[| c m] |]; reflexivity.
Qed.

(** X3. [Git.tag] starts one command, [git tag <name>] followed by
    [--sign] when a signature is asked for and by [--message <message>]
    when the message is not empty; it returns when the command exits with
    code 0 and raises [CalledProcessError] with that command line, the
    exit code and the output otherwise. *)
Theorem git_tag_outcome sign name message w rc out fs :
  execute w (git_tag_command sign name message) (environ w) (files w)
  = (Exited rc out, fs) ->
  tag Git sign name message w
  = (if rc =? 0 then Ok tt
     else Raise (CalledProcessError rc
                   (PyList (git_tag_command sign name message)) out),
     World (environ w) fs (classes w)
           (started w ++ [(git_tag_command sign name message, environ w)])
           (execute w) (mkstemp w)).
Proof.
  intros Hrun.
  unfold tag, Git.tag. rewrite git_tag_command_built.
  unfold check_output, run, spawn. unfold_monad.
  change (argv (PyList (git_tag_command sign name message)))
    with (@Ok (list str) (git_tag_command sign name message)).
  cbn [default]. rewrite Hrun.
  destruct (rc =? 0); reflexivity.
Qed.

Lemma git_tag_outcome_witness :
  execute git_tagging_checkout (git_tag_command false "v1.2.4" None)
    (environ git_tagging_checkout) (files git_tagging_checkout)
  = (Exited 128 ("fatal: tag 'v1.2.4' already exists" +:+ newline),
     files git_tagging_checkout)
  /\ fst (tag Git false "v1.2.4" None git_tagging_checkout)
     = Raise (CalledProcessError 128 (PyList ["git"; "tag"; "v1.2.4"])
                ("fatal: tag 'v1.2.4' already exists" +:+ newline)).
Proof.
  split; [reflexivity |].
  rewrite (git_tag_outcome false "v1.2.4" None git_tagging_checkout 128
             ("fatal: tag 'v1.2.4' already exists" +:+ newline)
             (files git_tagging_checkout) eq_refl).
  reflexivity.
Defined.

(** X4. In a working copy whose URL gives [base] and [root], [SVN.tag]
    starts [svn copy <root> <base>/tags/<name> --message "<message>"],
    the message between double quotes and two double quotes for no
    message; [sign] plays no part. It returns or raises as the copy exits
    with code 0 or not. *)
Theorem svn_tag_outcome sign name message w w1 url b r rc out fs :
  SVN.current_url w = (Ok (Some url), w1) ->
  SVN.locate url SVN.folders = (Some b, Some r) ->
  execute w1 (svn_copy_command b r name message) (environ w1) (files w1)
  = (Exited rc out, fs) ->
  tag SVN sign name message w
  = (if rc =? 0 then Ok tt
     else Raise (CalledProcessError rc
                   (PyList (svn_copy_command b r name message)) out),
     World (environ w1) fs (classes w1)
           (started w1 ++ [(svn_copy_command b r name message, environ w1)])
           (execute w1) (mkstemp w1)).
Proof.
  intros Hurl Hloc Hrun.
  unfold tag, SVN.tag, SVN.repo_urls, SVN.urls_of. unfold_monad.
  rewrite Hurl, Hloc. cbn [base root].
  unfold check_output, run, spawn. unfold_monad.
  cbn [argv default]. fold (svn_copy_command b r name message).
  rewrite Hrun. destruct (rc =? 0); reflexivity.
Qed.

Lemma svn_tag_outcome_witness :
  fst (SVN.current_url svn_tagging_copy)
  = Ok (Some "https://svn.example.org/project/trunk/sub")
  /\ SVN.locate "https://svn.example.org/project/trunk/sub" SVN.folders
     = (Some "https://svn.example.org/project",
        Some "https://svn.example.org/project/trunk")
  /\ fst (tag SVN true "v1.2.4" (Some "Release 1.2.4") svn_tagging_copy) = Ok tt
  /\ (fst <$> last (started (snd (tag SVN true "v1.2.4" (Some "Release 1.2.4")
                                    svn_tagging_copy))))
     = Some (svn_copy_command "https://svn.example.org/project"
               "https://svn.example.org/project/trunk" "v1.2.4"
               (Some "Release 1.2.4")).
Proof.
  split; [reflexivity | split; [reflexivity |]].
  pose proof (svn_tag_outcome true "v1.2.4" (Some "Release 1.2.4")
                svn_tagging_copy (snd (SVN.current_url svn_tagging_copy))
                "https://svn.example.org/project/trunk/sub"
                "https://svn.example.org/project"
                "https://svn.example.org/project/trunk" 0
                ("Committed revision 43." +:+ newline)
                (files svn_tagging_copy) eq_refl eq_refl eq_refl) as H.
  rewrite H. split; reflexivity.
Defined.

(** X5. Where the URL of the working copy gives no [base] (no layout
    folder occurs in it, or [svn info] prints no URL), [SVN.tag] raises
    [TypeError] once [svn info] has run and does not start [svn copy]. *)
Theorem svn_tag_without_layout sign name message w w1 curr_url :
  SVN.current_url w = (Ok curr_url, w1) ->
  base (SVN.urls_of curr_url) = None ->
  tag SVN sign name message w = (Raise TypeError, w1).
Proof.
  intros Hurl Hbase.
  unfold tag, SVN.tag, SVN.repo_urls. unfold_monad.
  rewrite Hurl, Hbase. reflexivity.
Qed.

Lemma svn_tag_without_layout_witness :
  SVN.current_url outside_repository
  = (Ok None, snd (SVN.current_url outside_repository))
  /\ base (SVN.urls_of None) = None
  /\ fst (tag SVN false "v1.2.4" None outside_repository) = Raise TypeError
  /\ (fst <$> started (snd (tag SVN false "v1.2.4" None outside_repository)))
     = [["svn"; "info"]].
Proof.
  split; [reflexivity | split; [reflexivity |]].
  pose proof (svn_tag_without_layout false "v1.2.4" None outside_repository
                (snd (SVN.current_url outside_repository)) None
                eq_refl eq_refl) as H.
  rewrite H. split; reflexivity.
Defined.

(** X6. [Git.add_path] starts one command, [git add --update <path>]; it
    returns when the command exits with code 0 and raises
    [CalledProcessError] otherwise, while [Mercurial.add_path] returns
    without starting any command and leaves the world as it is. *)
Theorem add_path_outcome path w rc out fs :
  execute w ["git"; "add"; "--update"; path] (environ w) (files w)
  = (Exited rc out, fs) ->
  add_path Git path w
  = (if rc =? 0 then Ok tt
     else Raise (CalledProcessError rc
                   (PyList ["git"; "add"; "--update"; path]) out),
     World (environ w) fs (classes w)
           (started w ++ [(["git"; "add"; "--update"; path], environ w)])
           (execute w) (mkstemp w))
  /\ add_path Mercurial path w = (Ok tt, w).
Proof.
  intros Hrun. split; [| reflexivity].
  unfold add_path, Git.add_path, check_output, run, spawn. unfold_monad.
  cbn [argv default]. rewrite Hrun. destruct (rc =? 0); reflexivity.
Qed.

Lemma add_path_outcome_witness :
  execute git_tagging_checkout ["git"; "add"; "--update"; "missing.py"]
    (environ git_tagging_checkout) (files git_tagging_checkout)
  = (Exited 128 ("fatal: pathspec 'missing.py' did not match any files"
                 +:+ newline), files git_tagging_checkout)
  /\ fst (add_path Git "missing.py" git_tagging_checkout)
     = Raise (CalledProcessError 128
                (PyList ["git"; "add"; "--update"; "missing.py"])
                ("fatal: pathspec 'missing.py' did not match any files"
                 +:+ newline)).
Proof.
  split; [reflexivity |].
  rewrite (proj1 (add_path_outcome "missing.py" git_tagging_checkout 128
                    ("fatal: pathspec 'missing.py' did not match any files"
                     +:+ newline)
                    (files git_tagging_checkout) eq_refl)).
  reflexivity.
Defined.

(** ** The tag query of Git *)

(** X7. [Git.latest_tag_info] turns only a failed command into [{}]: when
    [git] cannot be started at all, the [OSError] leaves the call. *)
Theorem git_latest_tag_info_os_error w errno fs :
  execute w ["git"; "update-index"; "--refresh"] (environ w) (files w)
  = (NotStarted errno, fs) ->
  fst (latest_tag_info Git w) = Raise (OSError errno).
Proof.
  intros Hrun.
  unfold latest_tag_info, Git.latest_tag_info, try_except, check_output, run, spawn.
  unfold_monad. cbn [argv default]. rewrite Hrun. reflexivity.
Qed.

Lemma git_latest_tag_info_os_error_witness :
  execute svn_working_copy ["git"; "update-index"; "--refresh"]
    (environ svn_working_copy) (files svn_working_copy)
  = (NotStarted ENOENT, files svn_working_copy)
  /\ fst (latest_tag_info Git svn_working_copy) = Raise (OSError ENOENT).
Proof.
  split; [reflexivity |].
  exact (git_latest_tag_info_os_error svn_working_copy ENOENT _ eq_refl).
Defined.

(** X8. When [git update-index --refresh] exits with a nonzero code,
    [Git.latest_tag_info] returns [{}] without starting [git describe]:
    the refresh is the only command it has started. *)
Theorem git_latest_tag_info_stops_at_refresh w rc out fs :
  rc <> 0 ->
  execute w ["git"; "update-index"; "--refresh"] (environ w) (files w)
  = (Exited rc out, fs) ->
  latest_tag_info Git w
  = (Ok ∅,
     World (environ w) fs (classes w)
           (started w ++ [(["git"; "update-index"; "--refresh"], environ w)])
           (execute w) (mkstemp w)).
Proof.
  intros Hrc Hrun. apply Z.eqb_neq in Hrc.
  unfold latest_tag_info, Git.latest_tag_info, try_except, check_output, run, spawn.
  unfold_monad. cbn [argv default]. rewrite Hrun. rewrite Hrc. reflexivity.
Qed.

Lemma git_latest_tag_info_stops_at_refresh_witness :
  128 <> 0
  /\ execute outside_repository ["git"; "update-index"; "--refresh"]
       (environ outside_repository) (files outside_repository)
     = (Exited 128 ("fatal: not a git repository" +:+ newline),
        files outside_repository)
  /\ fst (latest_tag_info Git outside_repository) = Ok ∅
  /\ (fst <$> started (snd (latest_tag_info Git outside_repository)))
     = [["git"; "update-index"; "--refresh"]].
Proof.
  split; [discriminate | split; [reflexivity |]].
  rewrite (git_latest_tag_info_stops_at_refresh outside_repository 128
             ("fatal: not a git repository" +:+ newline)
             (files outside_repository) ltac:(discriminate) eq_refl).
  split; reflexivity.
Defined.

(** ** The check of the working directory *)

(** X9. For every backend, a status query that exits with a nonzero code
    makes [assert_nondirty] raise [CalledProcessError] with the command
    line of the query, the exit code and the output, and not
    [WorkingDirectoryIsDirtyException]. *)
Theorem assert_nondirty_status_failure cls w rc out fs :
  rc <> 0 ->
  execute w (status_command cls) (environ w) (files w) = (Exited rc out, fs) ->
  fst (assert_nondirty cls w)
  = Raise (CalledProcessError rc (PyList (status_command cls)) out).
Proof.
  intros Hrc Hrun. apply Z.eqb_neq in Hrc.
  destruct cls;
    unfold assert_nondirty, Git.assert_nondirty, Mercurial.assert_nondirty,
      SVN.assert_nondirty, check_output, run, spawn;
    unfold_monad; cbn [argv default status_command] in *;
    rewrite Hrun; rewrite Hrc; reflexivity.
Qed.

Lemma assert_nondirty_status_failure_witness :
  255 <> 0
  /\ execute outside_repository (status_command Mercurial)
       (environ outside_repository) (files outside_repository)
     = (Exited 255 "abort: no repository found", files outside_repository)
  /\ fst (assert_nondirty Mercurial outside_repository)
     = Raise (CalledProcessError 255 (PyList ["hg"; "status"; "-mard"])
                "abort: no repository found").
Proof.
  split; [discriminate | split; [reflexivity |]].
  exact (assert_nondirty_status_failure Mercurial outside_repository 255 _ _
           ltac:(discriminate) eq_refl).
Defined.

Lemma brstrip_cons c b :
  Text.brstrip (String c b)
  = match Text.brstrip b with
    | EmptyString => if Text.bspace c then EmptyString else String c EmptyString
    | t => String c t
    end.
Proof. reflexivity. Qed.

Lemma brstrip_idempotent b : Text.brstrip (Text.brstrip b) = Text.brstrip b.
Proof.
  induction b as [| c b IH]; [reflexivity |].
  rewrite brstrip_cons.
  destruct (Text.brstrip b) as [| d t] eqn:E.
  - destruct (Text.bspace c) eqn:Ec; [reflexivity |].
    rewrite brstrip_cons. cbn [Text.brstrip]. rewrite Ec. reflexivity.
  - rewrite brstrip_cons, IH. reflexivity.
Qed.

Lemma blstrip_head b :
  match Text.blstrip b with
  | String c _ => Text.bspace c = false
  | EmptyString => True
  end.
Proof.
  induction b as [| c b IH]; [exact I |].
  cbn [Text.blstrip]. destruct (Text.bspace c) eqn:Ec; [exact IH | exact Ec].
Qed.

Lemma brstrip_head c b :
  Text.bspace c = false ->
  exists t, Text.brstrip (String c b) = String c t.
Proof.
  intros Hc. cbn [Text.brstrip].
  destruct (Text.brstrip b) as [| d t].
  - rewrite Hc. eexists. reflexivity.
  - eexists. reflexivity.
Qed.

(** [strip] on bytes leaves nothing to strip. *)
Lemma bstrip_idempotent b : Text.bstrip (Text.bstrip b) = Text.bstrip b.
Proof.
  unfold Text.bstrip.
  pose proof (blstrip_head b) as Hhead.
  destruct (Text.blstrip b) as [| c r] eqn:E; [reflexivity |].
  destruct (brstrip_head c r Hhead) as [t Ht].
  rewrite Ht. cbn [Text.blstrip]. rewrite Hhead.
  rewrite <- Ht. apply brstrip_idempotent.
Qed.

(** X10. Every line [assert_nondirty] of Git and Mercurial keeps for its
    message is a line of the status output with the white space at both
    ends removed, has no such white space left, and does not start with
    the untracked mark ["??"]. *)
Theorem kept_lines_are_tracked out line :
  In line (kept_lines out) ->
  Text.startswith line "??" = false
  /\ Text.bstrip line = line
  /\ exists raw, In raw (Text.splitlines out) /\ line = Text.bstrip raw.
Proof.
  unfold kept_lines. intros Hin.
  apply in_map_iff in Hin. destruct Hin as (raw & <- & Hraw).
  apply List.filter_In in Hraw. destruct Hraw as [Hraw Hkeep].
  apply negb_true_iff in Hkeep.
  split; [exact Hkeep | split; [apply bstrip_idempotent |]].
  exists raw. split; [exact Hraw | reflexivity].
Qed.

Lemma kept_lines_are_tracked_witness :
  In "M setup.py"
     (kept_lines (" M setup.py" +:+ newline +:+ "?? notes.txt" +:+ newline))
  /\ Text.startswith "M setup.py" "??" = false
  /\ Text.bstrip "M setup.py" = "M setup.py".
Proof.
  assert (In "M setup.py"
            (kept_lines (" M setup.py" +:+ newline +:+ "?? notes.txt" +:+ newline)))
    as Hin by (left; reflexivity).
  destruct (kept_lines_are_tracked _ _ Hin) as (H1 & H2 & _).
  split; [exact Hin | split; [exact H1 | exact H2]].
Defined.

(** X11. When Git or Mercurial finds the working directory dirty and the
    kept lines are well-formed UTF-8, the message of the exception is
    the title of the backend, a line end, and the kept lines in the
    order of the status output, joined by line ends. *)
Theorem dirty_message_lists_kept_lines cls w out fs :
  cls <> SVN ->
  execute w (status_command cls) (environ w) (files w) = (Exited 0 out, fs) ->
  kept_lines out <> [] ->
  Text.utf8_valid (Text.join newline (kept_lines out)) = true ->
  fst (assert_nondirty cls w)
  = Raise (WorkingDirectoryIsDirtyException
             (dirty_title cls +:+ newline
              +:+ Text.join newline (kept_lines out))).
Proof.
  intros Hcls Hrun Hkept Hvalid.
  destruct cls; [| | congruence];
    unfold assert_nondirty, Git.assert_nondirty, Mercurial.assert_nondirty,
      check_output, run, spawn;
    unfold_monad; cbn [argv default status_command] in *;
    rewrite Hrun; cbn [Z.eqb fst];
    rewrite raise_if_dirty_outcome;
    (destruct (kept_lines out) as [| l ls]; [congruence |]);
    rewrite Hvalid; reflexivity.
Qed.

Lemma dirty_message_lists_kept_lines_witness :
  Git <> SVN
  /\ kept_lines (" M setup.py" +:+ newline +:+ "?? notes.txt" +:+ newline) <> []
  /\ fst (assert_nondirty Git git_checkout)
     = Raise (WorkingDirectoryIsDirtyException
                ("Git working directory is not clean:" +:+ newline
                 +:+ "M setup.py")).
Proof.
  split; [discriminate | split; [discriminate |]].
  exact (dirty_message_lists_kept_lines Git git_checkout
           (" M setup.py" +:+ newline +:+ "?? notes.txt" +:+ newline)
           (files git_checkout) ltac:(discriminate) eq_refl
           ltac:(discriminate) eq_refl).
Defined.

(** X12. SVN decodes nothing of the status output: for every output that
    is not empty, the message of its exception is the title, a line end
    and the [repr] of the bytes, which has the form [b'...']. *)
Theorem svn_dirty_message_is_repr w c out fs :
  execute w (status_command SVN) (environ w) (files w)
  = (Exited 0 (String c out), fs) ->
  fst (assert_nondirty SVN w)
  = Raise (WorkingDirectoryIsDirtyException
             (dirty_title SVN +:+ newline +:+ Text.repr (String c out)))
  /\ exists q body, Text.repr (String c out) = String "b" (String q body).
Proof.
  intros Hrun. split.
  - unfold assert_nondirty, SVN.assert_nondirty, check_output, run, spawn.
    unfold_monad. cbn [argv default status_command] in *.
    rewrite Hrun. reflexivity.
  - unfold Text.repr. eexists _, _. reflexivity.
Qed.

Lemma svn_dirty_message_is_repr_witness :
  execute svn_working_copy (status_command SVN) (environ svn_working_copy)
    (files svn_working_copy)
  = (Exited 0 ("M       setup.py" +:+ newline), files svn_working_copy)
  /\ fst (assert_nondirty SVN svn_working_copy)
     = Raise (WorkingDirectoryIsDirtyException
                ("SVN working directory is not clean:" +:+ newline
                 +:+ "b'M       setup.py" +:+ String Text.backslash "n'")).
Proof.
  split; [reflexivity |].
  exact (proj1 (svn_dirty_message_is_repr svn_working_copy "M"
                  ("       setup.py" +:+ newline) (files svn_working_copy)
                  eq_refl)).
Defined.

(** X13. When Git or Mercurial finds the working directory dirty and the
    kept lines are not well-formed UTF-8, building the message fails and
    [assert_nondirty] raises [UnicodeDecodeError] in the place of
    [WorkingDirectoryIsDirtyException]. *)
Theorem dirty_lines_not_utf8 cls w out fs :
  cls <> SVN ->
  execute w (status_command cls) (environ w) (files w) = (Exited 0 out, fs) ->
  kept_lines out <> [] ->
  Text.utf8_valid (Text.join newline (kept_lines out)) = false ->
  fst (assert_nondirty cls w) = Raise UnicodeDecodeError.
Proof.
  intros Hcls Hrun Hkept Hvalid.
  destruct cls; [| | congruence];
    unfold assert_nondirty, Git.assert_nondirty, Mercurial.assert_nondirty,
      check_output, run, spawn;
    unfold_monad; cbn [argv default status_command] in *;
    rewrite Hrun; cbn [Z.eqb fst];
    rewrite raise_if_dirty_outcome;
    (destruct (kept_lines out) as [| l ls]; [congruence |]);
    rewrite Hvalid; reflexivity.
Qed.

Lemma dirty_lines_not_utf8_witness :
  Git <> SVN
  /\ execute latin1_checkout (status_command Git) (environ latin1_checkout)
       (files latin1_checkout)
     = (Exited 0 (" M caf" +:+ String (ascii_of_N 233) ".txt" +:+ newline),
        files latin1_checkout)
  /\ fst (assert_nondirty Git latin1_checkout) = Raise UnicodeDecodeError.
Proof.
  split; [discriminate | split; [reflexivity |]].
  exact (dirty_lines_not_utf8 Git latin1_checkout _ _
           ltac:(discriminate) eq_refl ltac:(discriminate) eq_refl).
Defined.

(** ** More on [commit] *)

Lemma getattr_commit_command_of cls w :
  classes w = module_classes ->
  getattr cls "_COMMIT_COMMAND" w = (Ok (PyList (commit_command cls)), w).
Proof.
  intros H. unfold getattr. rewrite H. destruct cls; reflexivity.
Qed.

Lemma commit_unfold_module cls message data context extra_args w cv nv :
  Text.encode message = Some data ->
  classes w = module_classes ->
  context !! "current_version" = Some cv ->
  context !! "new_version" = Some nv ->
  let f := mkstemp w (files w) in
  let fs1 := <[f := data]> (<[f := EmptyString]> (files w)) in
  let cmd := commit_command cls ++ [f] ++ default [] extra_args in
  let env := commit_env w cv nv in
  let log := started w ++ [(cmd, env)] in
  commit cls message context extra_args w =
  match execute w cmd env fs1 with
  | (Exited rc out, fs) =>
    match fs !! f with
    | Some _ =>
      (if rc =? 0 then Ok tt else Raise (CalledProcessError rc (PyList cmd) out),
       World (environ w) (delete f fs) (classes w) log (execute w) (mkstemp w))
    | None =>
      (Raise (OSError ENOENT),
       World (environ w) fs (classes w) log (execute w) (mkstemp w))
    end
  | (NotStarted errno, _) =>
    (Raise (OSError errno),
     World (environ w) (delete f fs1) (classes w) log (execute w) (mkstemp w))
  end.
Proof.
  intros Hm Hcls Hc Hn.
  apply (commit_unfold cls message data context extra_args w cv nv
           (commit_command cls) Hm Hc Hn).
  intros w' Hw'. apply getattr_commit_command_of. congruence.
Qed.

(** X14. With a message that has a UTF-8 form and both version keys in
    the context, [commit] runs the commit command of the backend followed
    by the name of the message file and then the extra arguments in their
    order; while the message file is still there when the command ends,
    [commit] returns for exit code 0 and otherwise raises
    [CalledProcessError] with that whole command line, the exit code and
    the output. *)
Theorem commit_reports_exit_code
    cls message data context extra_args w cv nv rc out fs :
  Text.encode message = Some data ->
  classes w = module_classes ->
  context !! "current_version" = Some cv ->
  context !! "new_version" = Some nv ->
  execute w
    (commit_command cls ++ [mkstemp w (files w)] ++ default [] extra_args)
    (commit_env w cv nv)
    (<[mkstemp w (files w) := data]>
       (<[mkstemp w (files w) := EmptyString]> (files w)))
  = (Exited rc out, fs) ->
  is_Some (fs !! mkstemp w (files w)) ->
  fst (commit cls message context extra_args w)
  = if rc =? 0 then Ok tt
    else Raise (CalledProcessError rc
                  (PyList (commit_command cls ++ [mkstemp w (files w)]
                           ++ default [] extra_args)) out).
Proof.
  intros Hm Hcls Hc Hn Hrun [content Hf].
  rewrite (commit_unfold_module cls message data context extra_args w cv nv
             Hm Hcls Hc Hn).
  cbv zeta. rewrite Hrun, Hf. reflexivity.
Qed.

Lemma commit_reports_exit_code_witness :
  Text.encode "Bump version" = Some "Bump version"
  /\ classes git_checkout = module_classes
  /\ sample_context !! "current_version" = Some "1.2.3"
  /\ sample_context !! "new_version" = Some "1.2.4"
  /\ fst (commit Git "Bump version" sample_context (Some ["--no-verify"])
            git_checkout)
     = Raise (CalledProcessError 1
                (PyList ["git"; "commit"; "-F"; "/tmp/tmpk3x9"; "--no-verify"])
                "hook failed").
Proof.
  split; [reflexivity |].
  split; [reflexivity | split; [reflexivity | split; [reflexivity |]]].
  exact (commit_reports_exit_code Git "Bump version" "Bump version"
           sample_context (Some ["--no-verify"]) git_checkout "1.2.3" "1.2.4"
           1 "hook failed" _ eq_refl eq_refl eq_refl eq_refl eq_refl
           (mk_is_Some _ _ eq_refl)).
Defined.

(** X15. When the commit command, run for a message that has a UTF-8
    form, has itself removed the message file, the [os.unlink] of the
    [finally] clause fails and its [OSError] (ENOENT) is what [commit]
    raises, for every exit code of the command, 0 included. *)
Theorem commit_message_file_already_removed
    cls message data context extra_args w cv nv rc out fs :
  Text.encode message = Some data ->
  classes w = module_classes ->
  context !! "current_version" = Some cv ->
  context !! "new_version" = Some nv ->
  execute w
    (commit_command cls ++ [mkstemp w (files w)] ++ default [] extra_args)
    (commit_env w cv nv)
    (<[mkstemp w (files w) := data]>
       (<[mkstemp w (files w) := EmptyString]> (files w)))
  = (Exited rc out, fs) ->
  fs !! mkstemp w (files w) = None ->
  fst (commit cls message context extra_args w) = Raise (OSError ENOENT).
Proof.
  intros Hm Hcls Hc Hn Hrun Hf.
  rewrite (commit_unfold_module cls message data context extra_args w cv nv
             Hm Hcls Hc Hn).
  cbv zeta. rewrite Hrun, Hf. reflexivity.
Qed.

Lemma commit_message_file_already_removed_witness :
  Text.encode "Bump version" = Some "Bump version"
  /\ classes hook_cleans_tmp = module_classes
  /\ sample_context !! "current_version" = Some "1.2.3"
  /\ sample_context !! "new_version" = Some "1.2.4"
  /\ fst (commit Git "Bump version" sample_context None hook_cleans_tmp)
     = Raise (OSError ENOENT).
Proof.
  split; [reflexivity |].
  split; [reflexivity | split; [reflexivity | split; [reflexivity |]]].
  exact (commit_message_file_already_removed Git "Bump version" "Bump version"
           sample_context None hook_cleans_tmp "1.2.3" "1.2.4" 0 EmptyString _
           eq_refl eq_refl eq_refl eq_refl eq_refl eq_refl).
Defined.

(** X16. When the commit command cannot be started, [commit], called
    with a message that has a UTF-8 form, raises the [OSError] of the
    operating system and, the name of the message file being new, leaves
    the files exactly as they were before the call. *)
Theorem commit_cannot_start
    cls message data context extra_args w cv nv errno fs :
  Text.encode message = Some data ->
  classes w = module_classes ->
  context !! "current_version" = Some cv ->
  context !! "new_version" = Some nv ->
  files w !! mkstemp w (files w) = None ->
  execute w
    (commit_command cls ++ [mkstemp w (files w)] ++ default [] extra_args)
    (commit_env w cv nv)
    (<[mkstemp w (files w) := data]>
       (<[mkstemp w (files w) := EmptyString]> (files w)))
  = (NotStarted errno, fs) ->
  fst (commit cls message context extra_args w) = Raise (OSError errno)
  /\ files (snd (commit cls message context extra_args w)) = files w.
Proof.
  intros Hm Hcls Hc Hn Hfresh Hrun.
  rewrite (commit_unfold_module cls message data context extra_args w cv nv
             Hm Hcls Hc Hn).
  cbv zeta. rewrite Hrun. split; [reflexivity |].
  cbn [snd files]. rewrite insert_insert_eq.
  apply delete_insert_id. exact Hfresh.
Qed.

Lemma commit_cannot_start_witness :
  Text.encode "Bump version" = Some "Bump version"
  /\ classes git_checkout = module_classes
  /\ sample_context !! "current_version" = Some "1.2.3"
  /\ sample_context !! "new_version" = Some "1.2.4"
  /\ files git_checkout !! mkstemp git_checkout (files git_checkout) = None
  /\ fst (commit Mercurial "Bump version" sample_context None git_checkout)
     = Raise (OSError ENOENT)
  /\ files (snd (commit Mercurial "Bump version" sample_context None
                   git_checkout)) = files git_checkout.
Proof.
  split; [reflexivity |].
  split; [reflexivity | split; [reflexivity | split; [reflexivity |]]].
  split; [reflexivity |].
  exact (commit_cannot_start Mercurial "Bump version" "Bump version"
           sample_context None git_checkout "1.2.3" "1.2.4" ENOENT _
           eq_refl eq_refl eq_refl eq_refl eq_refl eq_refl).
Defined.

(** ** The URLs of a Subversion working copy, continued *)

Lemma lstrip_split chars s :
  exists dropped,
    s = dropped +:+ Text.lstrip chars s
    /\ Text.all (fun c => Text.mem c chars) dropped = true
    /\ match Text.lstrip chars s with
       | String c _ => Text.mem c chars = false
       | EmptyString => True
       end.
Proof.
  induction s as [| c s IH].
  - exists EmptyString. repeat split.
  - cbn [Text.lstrip]. destruct (Text.mem c chars) eqn:Ec.
    + destruct IH as (dropped & Heq & Hall & Hhead).
      exists (String c dropped). split; [| split].
      * change (String c dropped +:+ Text.lstrip chars s)
          with (String c (dropped +:+ Text.lstrip chars s)).
        rewrite <- Heq. reflexivity.
      * cbn [Text.all]. rewrite Ec, Hall. reflexivity.
      * exact Hhead.
    + exists EmptyString. repeat split. exact Ec.
Qed.

(** X17. After a successful [svn info] with well-formed output,
    [current_url] is [None] exactly when no line of the output starts
    with ["URL:"]; otherwise it is what is left of the first such line
    once every leading character that is one of [U], [R], [L], [:] and the
    space is dropped, so the URL it returns never starts with one of
    these. *)
Theorem current_url_outcome w out fs text :
  execute w ["svn"; "info"] (environ w) (files w) = (Exited 0 out, fs) ->
  Text.decode out = Some text ->
  match fst (SVN.current_url w) with
  | Ok None =>
    forall line, In line (Text.split Text.LF text) ->
                 Text.startswith line "URL:" = false
  | Ok (Some url) =>
    exists before line after dropped,
      Text.split Text.LF text = before ++ line :: after
      /\ (forall l, In l before -> Text.startswith l "URL:" = false)
      /\ Text.startswith line "URL:" = true
      /\ line = dropped +:+ url
      /\ Text.all (fun c => Text.mem c "URL: ") dropped = true
      /\ match url with
         | String c _ => Text.mem c "URL: " = false
         | EmptyString => True
         end
  | Raise _ => False
  end.
Proof.
  intros Hrun Hdec.
  unfold SVN.current_url, check_output, run, spawn. unfold_monad.
  cbn [argv default]. rewrite Hrun. cbn [Z.eqb fst]. rewrite Hdec.
  cbn [or_raise fst].
  induction (Text.split Text.LF text) as [| l ls IH].
  - intros line [].
  - cbn [List.find]. destruct (Text.startswith l "URL:") eqn:El.
    + cbn [fmap option_fmap option_map].
      destruct (lstrip_split "URL: " l) as (dropped & Heq & Hall & Hhead).
      exists [], l, ls, dropped. repeat split; try assumption.
      intros l' [].
    + destruct (List.find (fun line => Text.startswith line "URL:") ls)
        as [found |] eqn:Ef; cbn [fmap option_fmap option_map] in *.
      * destruct IH as (before & line & after & dropped & Hs & Hb & Hl & Hrest).
        exists (l :: before), line, after, dropped.
        split; [rewrite Hs; reflexivity |].
        split; [| split; [exact Hl | exact Hrest]].
        intros l' [<- | Hin]; [exact El | exact (Hb l' Hin)].
      * intros line [<- | Hin]; [exact El | exact (IH line Hin)].
Qed.

Lemma current_url_outcome_witness :
  execute svn_working_copy ["svn"; "info"] (environ svn_working_copy)
    (files svn_working_copy)
  = (Exited 0 ("Path: ." +:+ newline
               +:+ "URL: https://svn.example.org/project/trunk/sub"
               +:+ newline +:+ "Revision: 42" +:+ newline),
     files svn_working_copy)
  /\ fst (SVN.current_url svn_working_copy)
     = Ok (Some "https://svn.example.org/project/trunk/sub")
  /\ match fst (SVN.current_url svn_working_copy) with
     | Ok (Some (String c _)) => Text.mem c "URL: " = false
     | _ => True
     end.
Proof.
  split; [reflexivity | split; [reflexivity |]].
  pose proof (current_url_outcome svn_working_copy _ _ _ eq_refl eq_refl) as H.
  destruct (fst (SVN.current_url svn_working_copy)) as [[[| c url] |] | e];
    try exact I.
  destruct H as (_ & _ & _ & _ & _ & _ & _ & _ & _ & H). exact H.
Defined.

(** X18. When the output of [svn info] has no line that starts with
    ["URL:"], [repo_urls] returns [None] in all three fields and
    [SVN.is_usable] answers [False]; neither raises. *)
Theorem svn_without_url_line w out fs text :
  execute w ["svn"; "info"] (environ w) (files w) = (Exited 0 out, fs) ->
  Text.decode out = Some text ->
  (forall line, In line (Text.split Text.LF text) ->
                Text.startswith line "URL:" = false) ->
  fst (SVN.repo_urls w) = Ok (mkRepoUrls None None None)
  /\ fst (is_usable SVN w) = Ok false.
Proof.
  intros Hrun Hdec Hnone.
  assert (List.find (fun line => Text.startswith line "URL:")
            (Text.split Text.LF text) = None) as Hfind.
  { induction (Text.split Text.LF text) as [| l ls IH]; [reflexivity |].
    cbn [List.find]. rewrite (Hnone l (or_introl eq_refl)).
    apply IH. intros line Hin. apply Hnone. right. exact Hin. }
  unfold is_usable, SVN.is_usable, SVN.repo_urls, SVN.current_url,
    check_output, run, spawn.
  unfold_monad. cbn [argv default]. rewrite Hrun. cbn [Z.eqb fst].
  rewrite Hdec. cbn [or_raise]. rewrite Hfind. split; reflexivity.
Qed.

Lemma svn_without_url_line_witness :
  execute outside_repository ["svn"; "info"] (environ outside_repository)
    (files outside_repository)
  = (Exited 0 ("Path: ." +:+ newline), files outside_repository)
  /\ Text.decode ("Path: ." +:+ newline) = Some ("Path: ." +:+ newline)
  /\ fst (SVN.repo_urls outside_repository) = Ok (mkRepoUrls None None None)
  /\ fst (is_usable SVN outside_repository) = Ok false.
Proof.
  split; [reflexivity | split; [reflexivity |]].
  apply (svn_without_url_line outside_repository ("Path: ." +:+ newline)
           (files outside_repository) ("Path: ." +:+ newline) eq_refl eq_refl).
  intros line [<- | [<- | []]]; reflexivity.
Defined.

Lemma branches_needs_branch url :
  Text.rindex url "branch" = None -> Text.rindex url "branches" = None.
Proof.
  intros Ebranch.
  destruct (Text.rindex url "branches") as [j |] eqn:Ebranches; [| reflexivity].
  pose proof (rindex_occurs url "branches" j Ebranches) as Hocc.
  apply (occurs_at_app url "branch" "es" j) in Hocc.
  rewrite (rindex_none url "branch" Ebranch j) in Hocc. discriminate.
Qed.

Lemma svn_locate_two url :
  SVN.locate url SVN.folders = SVN.locate url ["branch"; "trunk"].
Proof.
  unfold SVN.folders. cbn [SVN.locate].
  destruct (Text.rindex url "branch") as [i |] eqn:Ebranch; [reflexivity |].
  rewrite (branches_needs_branch url Ebranch). reflexivity.
Qed.

(** X19. The folder ["branches"] never decides: wherever it occurs,
    ["branch"], which is tried first, occurs too, so the URLs are those the
    list [["branch"; "trunk"]] gives, and a working copy under
    [branches] gets a [root] that ends with ["branch"]. *)
Theorem svn_branches_never_decides url :
  SVN.urls_of (Some url)
  = (let '(b, r) := SVN.locate url ["branch"; "trunk"] in
     mkRepoUrls b r (Some url))
  /\ (Text.rindex url "branch" = None -> Text.rindex url "branches" = None).
Proof.
  split; [| apply branches_needs_branch].
  unfold SVN.urls_of. rewrite svn_locate_two. reflexivity.
Qed.

Lemma take_begins n s : begins s (Text.take n s).
Proof.
  revert n. induction s as [| c s IH]; intros n.
  - exists EmptyString. destruct n; reflexivity.
  - destruct n as [| n].
    + exists (String c s). reflexivity.
    + destruct (IH n) as [rest Hrest]. exists rest.
      change (String c s = String c (Text.take n s +:+ rest)).
      rewrite <- Hrest. reflexivity.
Qed.

Lemma slice_to_begins s k : begins s (Text.slice_to s k).
Proof. unfold Text.slice_to. apply take_begins. Qed.

Lemma locate_shape url folders b r :
  SVN.locate url folders = (b, r) ->
  (b = None /\ r = None)
  \/ exists folder idx,
       In folder folders
       /\ Text.rindex url folder = Some idx
       /\ b = Some (Text.slice_to url (Z.of_nat idx - 1))
       /\ r = Some (Text.take idx url +:+ folder).
Proof.
  induction folders as [| folder rest IH]; cbn [SVN.locate]; intros H.
  - left. split; congruence.
  - destruct (Text.rindex url folder) as [idx |] eqn:E.
    + right. exists folder, idx. clear IH. injection H as <- <-.
      split; [left; reflexivity | split; [exact E | split; [reflexivity |]]].
      rewrite <- Nat2Z.inj_add, slice_to_take.
      rewrite (occurs_at_take url folder idx (rindex_occurs url folder idx E)).
      reflexivity.
    + destruct (IH H) as [Hnone | (f & idx & Hin & Hrest)]; [left; exact Hnone |].
      right. exists f, idx. split; [right; exact Hin | exact Hrest].
Qed.

(** X20. The URLs [repo_urls] derives: [current] is the URL of the
    working copy as [current_url] gave it; [base] and [root] are both
    [None] or both strings; each of the two is a beginning of the current
    URL; and [root] ends with ["branch"] or with ["trunk"]. *)
Theorem repo_urls_shape curr_url :
  current (SVN.urls_of curr_url) = curr_url
  /\ (base (SVN.urls_of curr_url) = None <-> root (SVN.urls_of curr_url) = None)
  /\ (forall r, root (SVN.urls_of curr_url) = Some r ->
       exists url, curr_url = Some url /\ begins url r
                   /\ (endswith r "branch" \/ endswith r "trunk"))
  /\ (forall b, base (SVN.urls_of curr_url) = Some b ->
       exists url, curr_url = Some url /\ begins url b).
Proof.
  unfold SVN.urls_of.
  destruct curr_url as [url |];
    [| cbn; repeat split; intros; try discriminate; assumption].
  rewrite (svn_locate_two url).
  destruct (SVN.locate url ["branch"; "trunk"]) as [b r] eqn:Hloc.
  cbn [current base root].
  destruct (locate_shape url _ b r Hloc)
    as [[-> ->] | (folder & idx & Hin & Hidx & -> & ->)].
  - repeat split; intros; try discriminate; assumption.
  - split; [reflexivity |]. split; [split; discriminate |]. split.
    + intros r [= <-]. exists url. split; [reflexivity |]. split.
      * rewrite <- (occurs_at_take url folder idx (rindex_occurs url folder idx Hidx)).
        apply take_begins.
      * destruct Hin as [<- | [<- | []]];
          [left | right]; exists (Text.take idx url); reflexivity.
    + intros b [= <-]. exists url. split; [reflexivity |].
      apply slice_to_begins.
Qed.

(** ** The tag-info parser, continued *)

Lemma split_nonempty sep s : exists h t, Text.split sep s = h :: t.
Proof.
  destruct s as [| c s]; cbn [Text.split]; [eexists _, _; reflexivity |].
  destruct (Ascii.eqb c sep); [eexists _, _; reflexivity |].
  destruct (Text.split sep s); eexists _, _; reflexivity.
Qed.

Lemma split_app_any sep a b :
  Text.split sep (a +:+ String sep b) = Text.split sep a ++ Text.split sep b.
Proof.
  induction a as [| c a IH].
  - change (EmptyString +:+ String sep b) with (String sep b).
    cbn [Text.split app]. rewrite Ascii.eqb_refl. reflexivity.
  - change (String c a +:+ String sep b) with (String c (a +:+ String sep b)).
    cbn [Text.split]. rewrite IH.
    destruct (Ascii.eqb c sep); [reflexivity |].
    destruct (split_nonempty sep a) as (h & t & ->). reflexivity.
Qed.

Lemma join_cons_char sep c h t :
  Text.join sep (String c h :: t) = String c (Text.join sep (h :: t)).
Proof. destruct t; reflexivity. Qed.

(** Joining the pieces of a split gives the string back. *)
Lemma join_split sep s :
  Text.join (String sep EmptyString) (Text.split sep s) = s.
Proof.
  induction s as [| c s IH]; [reflexivity |].
  cbn [Text.split]. destruct (Ascii.eqb c sep) eqn:Ec.
  - apply Ascii.eqb_eq in Ec. subst c.
    destruct (split_nonempty sep s) as (h & t & Hs).
    rewrite Hs in *.
    change (String sep (Text.join (String sep EmptyString) (h :: t)) = String sep s).
    rewrite IH. reflexivity.
  - destruct (split_nonempty sep s) as (h & t & Hs).
    rewrite Hs in *. rewrite join_cons_char, IH. reflexivity.
Qed.

Lemma pop_snoc l x : pop (l ++ [x]) = Ok (x, l).
Proof. unfold pop. rewrite last_snoc, removelast_last. reflexivity. Qed.

(** The parser on pieces that end with a distance and a commit piece. *)
Lemma describe_info_clean front distance n piece :
  String.eqb (Text.strip piece) "dirty" = false ->
  Text.int distance = Some n ->
  Git.describe_info ((front ++ [distance]) ++ [piece])
  = Ok (<["current_version" := PyStr (Text.lstrip "v" (Text.join "-" front))]>
          (<["distance_to_latest_tag" := PyInt n]>
             (<["commit_sha" := PyStr (Text.lstrip "g" piece)]> ∅))).
Proof.
  intros Hclean Hn. unfold Git.describe_info. unfold_monad.
  rewrite last_snoc. cbn [or_raise]. rewrite Hclean.
  rewrite pop_snoc, pop_snoc, Hn. reflexivity.
Qed.

(** The parser on pieces that end with a dirty marker. *)
Lemma describe_info_marked front distance n piece marker :
  String.eqb (Text.strip marker) "dirty" = true ->
  Text.int distance = Some n ->
  Git.describe_info (((front ++ [distance]) ++ [piece]) ++ [marker])
  = Ok (<["current_version" := PyStr (Text.lstrip "v" (Text.join "-" front))]>
          (<["distance_to_latest_tag" := PyInt n]>
             (<["commit_sha" := PyStr (Text.lstrip "g" piece)]>
                (<["dirty" := PyBool true]> ∅)))).
Proof.
  intros Hdirty Hn. unfold Git.describe_info. unfold_monad.
  rewrite last_snoc. cbn [or_raise]. rewrite Hdirty.
  rewrite removelast_last.
  rewrite pop_snoc, pop_snoc, Hn. reflexivity.
Qed.

Lemma hex_no_dash sha :
  Text.all is_hex sha = true ->
  Text.all (fun c => negb (Ascii.eqb c "-")) sha = true.
Proof.
  apply all_impl. intros c. apply hex_is_not. reflexivity.
Qed.

Lemma append_assoc a b c : (a +:+ b) +:+ c = a +:+ b +:+ c.
Proof.
  induction a as [| x a IH]; [reflexivity |].
  change (String x ((a +:+ b) +:+ c) = String x (a +:+ b +:+ c)).
  rewrite IH. reflexivity.
Qed.

(** The pieces of a describe string. *)
Lemma split_describe_string tag distance sha rest :
  Text.all (fun c => negb (is_dash c)) distance = true ->
  Text.split "-" (describe_string tag distance sha +:+ rest)
  = (Text.split "-" tag ++ [distance]) ++ Text.split "-" ("g" +:+ sha +:+ rest).
Proof.
  intros Hd. unfold describe_string.
  assert ((tag +:+ "-" +:+ distance +:+ "-g" +:+ sha) +:+ rest
          = tag +:+ String "-" (distance +:+ String "-" ("g" +:+ sha +:+ rest)))
    as ->.
  { rewrite !append_assoc. reflexivity. }
  rewrite split_app_any, split_app_any.
  rewrite (split_without_sep "-" distance Hd).
  rewrite app_assoc. reflexivity.
Qed.

Lemma append_empty s : s +:+ EmptyString = s.
Proof.
  induction s as [| c s IH]; [reflexivity |].
  change (String c (s +:+ EmptyString) = String c s). rewrite IH. reflexivity.
Qed.

Lemma strip_commit_piece sha :
  Text.all is_hex sha = true ->
  Text.strip ("g" +:+ sha) = "g" +:+ sha.
Proof.
  intros Hsha. apply strip_visible.
  change (visible "g" && Text.all visible sha = true).
  apply andb_true_iff. split; [reflexivity |].
  apply (all_impl is_hex); [exact hex_is_visible | exact Hsha].
Qed.

(** X21. From the describe string of a tag, a distance written in
    digits and a hexadecimal commit id, the parser reads the commit id and
    the distance back as they are, sets no [dirty] key, and gives the
    tag, dashes included, without the ["v"] characters it starts with as
    [current_version]. *)
Theorem describe_info_of_describe_string tag distance n sha :
  Text.all (fun c => negb (is_dash c)) distance = true ->
  Text.int distance = Some n ->
  Text.all is_hex sha = true ->
  Git.describe_info (Text.split "-" (describe_string tag distance sha))
  = Ok (<["current_version" := PyStr (Text.lstrip "v" tag)]>
          (<["distance_to_latest_tag" := PyInt n]>
             (<["commit_sha" := PyStr sha]> ∅))).
Proof.
  intros Hd Hn Hsha.
  rewrite <- (append_empty (describe_string tag distance sha)).
  rewrite (split_describe_string tag distance sha EmptyString Hd).
  rewrite append_empty.
  rewrite (split_without_sep "-" ("g" +:+ sha)) by (apply (hex_no_dash sha Hsha)).
  rewrite describe_info_clean with (n := n).
  - rewrite (join_split "-" tag).
    change (Text.lstrip "g" ("g" +:+ sha)) with (Text.lstrip "g" sha).
    rewrite (lstrip_g_hex sha Hsha). reflexivity.
  - rewrite (strip_commit_piece sha Hsha). reflexivity.
  - exact Hn.
Qed.

Lemma describe_info_of_describe_string_witness :
  Text.all (fun c => negb (is_dash c)) "12" = true
  /\ Text.int "12" = Some 12
  /\ Text.all is_hex sample_sha = true
  /\ Git.describe_info
       (Text.split "-" (describe_string "v1.0-rc1" "12" sample_sha))
     = Ok (<["current_version" := PyStr "1.0-rc1"]>
             (<["distance_to_latest_tag" := PyInt 12]>
                (<["commit_sha" := PyStr sample_sha]> ∅))).
Proof.
  split; [reflexivity | split; [reflexivity | split; [reflexivity |]]].
  exact (describe_info_of_describe_string "v1.0-rc1" "12" 12 sample_sha
           eq_refl eq_refl eq_refl).
Defined.

(** X22. The round trip of a version through its tag holds with dashes
    in the version too: for every version that does not start with
    ["v"], the describe string of the tag ["v" + version] is parsed back
    to that version. *)
Theorem tag_roundtrip_with_dashes v distance n sha :
  Text.startswith v "v" = false ->
  Text.all (fun c => negb (is_dash c)) distance = true ->
  Text.int distance = Some n ->
  Text.all is_hex sha = true ->
  parsed_version (describe_string ("v" +:+ v) distance sha) = Ok (PyStr v).
Proof.
  intros Hstart Hd Hn Hsha. unfold parsed_version.
  rewrite <- (append_empty (describe_string ("v" +:+ v) distance sha)).
  rewrite (split_describe_string ("v" +:+ v) distance sha EmptyString Hd).
  rewrite append_empty.
  rewrite (split_without_sep "-" ("g" +:+ sha)) by (apply (hex_no_dash sha Hsha)).
  rewrite describe_info_clean with (n := n);
    [| rewrite (strip_commit_piece sha Hsha); reflexivity | exact Hn].
  unfold_monad. unfold getitem. rewrite lookup_insert_eq. cbn [or_raise].
  rewrite (join_split "-" ("v" +:+ v)).
  change (Text.lstrip "v" ("v" +:+ v)) with (Text.lstrip "v" v).
  destruct v as [| c v']; [reflexivity |].
  assert (Ascii.eqb "v" c = false) as Hc.
  { destruct (Ascii.eqb "v" c) eqn:E; [| reflexivity].
    apply Ascii.eqb_eq in E. subst c. cbn in Hstart. discriminate Hstart. }
  cbn [Text.lstrip Text.mem]. rewrite orb_false_r, Ascii.eqb_sym, Hc.
  reflexivity.
Qed.

Lemma tag_roundtrip_with_dashes_witness :
  Text.startswith "1.0-rc1" "v" = false
  /\ Text.all (fun c => negb (is_dash c)) "12" = true
  /\ Text.int "12" = Some 12
  /\ Text.all is_hex sample_sha = true
  /\ parsed_version (describe_string ("v" +:+ "1.0-rc1") "12" sample_sha)
     = Ok (PyStr "1.0-rc1").
Proof.
  split; [reflexivity | split; [reflexivity | split; [reflexivity |]]].
  split; [reflexivity |].
  exact (tag_roundtrip_with_dashes "1.0-rc1" "12" 12 sample_sha
           eq_refl eq_refl eq_refl eq_refl).
Defined.

(** X23. A dirty marker at the end of the describe string, with or
    without white space after it, changes one thing in what the parser
    returns: the key [dirty] is there, with the value [True]. *)
Theorem dirty_marker_adds_dirty_key tag distance n sha ending :
  Text.all (fun c => negb (is_dash c)) distance = true ->
  Text.int distance = Some n ->
  Text.all is_hex sha = true ->
  Text.all (fun c => negb (is_dash c)) ending = true ->
  Text.strip ("dirty" +:+ ending) = "dirty" ->
  exists info,
    Git.describe_info (Text.split "-" (describe_string tag distance sha))
    = Ok info
    /\ info !! "dirty" = None
    /\ Git.describe_info
         (Text.split "-" (describe_string tag distance sha
                          +:+ "-dirty" +:+ ending))
       = Ok (<["dirty" := PyBool true]> info).
Proof.
  intros Hd Hn Hsha Hending Hstrip.
  eexists. split; [| split].
  - rewrite <- (append_empty (describe_string tag distance sha)).
    rewrite (split_describe_string tag distance sha EmptyString Hd).
    rewrite append_empty.
    rewrite (split_without_sep "-" ("g" +:+ sha)) by (apply (hex_no_dash sha Hsha)).
    apply describe_info_clean;
      [rewrite (strip_commit_piece sha Hsha); reflexivity | exact Hn].
  - rewrite !lookup_insert_ne by discriminate. apply lookup_empty.
  - rewrite (split_describe_string tag distance sha ("-dirty" +:+ ending) Hd).
    change ("g" +:+ sha +:+ "-dirty" +:+ ending)
      with (("g" +:+ sha) +:+ String "-" ("dirty" +:+ ending)).
    rewrite (split_app "-" ("g" +:+ sha)) by (apply (hex_no_dash sha Hsha)).
    rewrite (split_without_sep "-" ("dirty" +:+ ending)) by exact Hending.
    change ((Text.split "-" tag ++ [distance]) ++ ["g" +:+ sha; "dirty" +:+ ending])
      with ((Text.split "-" tag ++ [distance]) ++ ["g" +:+ sha] ++ ["dirty" +:+ ending]).
    rewrite app_assoc.
    rewrite describe_info_marked with (n := n);
      [| rewrite Hstrip; reflexivity | exact Hn].
    reflexivity.
Qed.

Lemma dirty_marker_adds_dirty_key_witness :
  Text.all (fun c => negb (is_dash c)) "0" = true
  /\ Text.int "0" = Some 0
  /\ Text.all is_hex sample_sha = true
  /\ Text.strip ("dirty" +:+ newline) = "dirty"
  /\ exists info,
       Git.describe_info (Text.split "-" (describe_string "v1.2.3" "0" sample_sha))
       = Ok info
       /\ info !! "dirty" = None
       /\ Git.describe_info
            (Text.split "-" (describe_string "v1.2.3" "0" sample_sha
                             +:+ "-dirty" +:+ newline))
          = Ok (<["dirty" := PyBool true]> info).
Proof.
  split; [reflexivity | split; [reflexivity | split; [reflexivity |]]].
  split; [reflexivity |].
  exact (dirty_marker_adds_dirty_key "v1.2.3" "0" 0 sample_sha newline
           eq_refl eq_refl eq_refl eq_refl eq_refl).
Defined.

(** [strip] removes the line end after visible ASCII text. *)
Lemma strip_visible_line_end s :
  Text.all visible s = true -> Text.strip (s +:+ newline) = s.
Proof.
  intros Hs. unfold Text.strip.
  rewrite chars_ascii.
  2:{ rewrite all_app. rewrite (all_impl _ _ s visible_is_ascii Hs). reflexivity. }
  rewrite singletons_app.
  destruct s as [| c s']; [reflexivity |].
  assert (Text.dropwhile Text.isspace (singletons (String c s') ++ singletons newline)
          = singletons (String c s') ++ singletons newline) as ->.
  { cbn [singletons app Text.dropwhile].
    pose proof (singletons_no_space _ Hs) as Hall.
    cbn [singletons forallb] in Hall.
    apply andb_true_iff in Hall. destruct Hall as [Hc _].
    apply negb_true_iff in Hc. rewrite Hc. reflexivity. }
  rewrite rev_app_distr.
  change (rev (singletons newline)) with [newline].
  cbn [app Text.dropwhile].
  change (Text.isspace newline) with true. cbv iota.
  rewrite dropwhile_none.
  - rewrite rev_involutive. apply join_singletons.
  - rewrite forallb_forall. intros x Hx. apply in_rev in Hx.
    pose proof (singletons_no_space _ Hs) as Hall.
    rewrite forallb_forall in Hall. exact (Hall x Hx).
Qed.

(** X24. For a clean tree [git describe] prints no dirty marker, and the
    line end that closes its output then stays in the commit id: the
    parser gives [commit_sha] as the id followed by the line end, while
    distance and version are as without it. *)
Theorem clean_describe_keeps_line_end tag distance n sha :
  Text.all (fun c => negb (is_dash c)) distance = true ->
  Text.int distance = Some n ->
  Text.all is_hex sha = true ->
  Git.describe_info
    (Text.split "-" (describe_string tag distance sha +:+ newline))
  = Ok (<["current_version" := PyStr (Text.lstrip "v" tag)]>
          (<["distance_to_latest_tag" := PyInt n]>
             (<["commit_sha" := PyStr (sha +:+ newline)]> ∅))).
Proof.
  intros Hd Hn Hsha.
  rewrite (split_describe_string tag distance sha newline Hd).
  rewrite (split_without_sep "-" ("g" +:+ sha +:+ newline)).
  2:{ change ("g" +:+ sha +:+ newline) with (String "g" (sha +:+ newline)).
      cbn [Text.all]. rewrite all_app.
      rewrite (hex_no_dash sha Hsha). reflexivity. }
  rewrite describe_info_clean with (n := n); [| | exact Hn].
  - rewrite (join_split "-" tag).
    change (Text.lstrip "g" ("g" +:+ sha +:+ newline))
      with (Text.lstrip "g" (sha +:+ newline)).
    destruct sha as [| c sha']; [reflexivity |].
    change (String c sha' +:+ newline) with (String c (sha' +:+ newline)).
    cbn [Text.lstrip Text.mem]. cbn [Text.all] in Hsha.
    apply andb_true_iff in Hsha. destruct Hsha as [Hc _].
    rewrite orb_false_r.
    assert (Ascii.eqb c "g" = false) as ->; [| reflexivity].
    apply negb_true_iff. apply (hex_is_not c "g"); [reflexivity | exact Hc].
  - change ("g" +:+ sha +:+ newline) with (("g" +:+ sha) +:+ newline).
    rewrite strip_visible_line_end; [reflexivity |].
    change (visible "g" && Text.all visible sha = true).
    apply andb_true_iff. split; [reflexivity |].
    apply (all_impl is_hex); [exact hex_is_visible | exact Hsha].
Qed.

Lemma clean_describe_keeps_line_end_witness :
  Text.all (fun c => negb (is_dash c)) "3" = true
  /\ Text.int "3" = Some 3
  /\ Text.all is_hex sample_sha = true
  /\ Git.describe_info
       (Text.split "-" (describe_string "v1.2.3" "3" sample_sha +:+ newline))
     = Ok (<["current_version" := PyStr "1.2.3"]>
             (<["distance_to_latest_tag" := PyInt 3]>
                (<["commit_sha" := PyStr (sample_sha +:+ newline)]> ∅))).
Proof.
  split; [reflexivity | split; [reflexivity | split; [reflexivity |]]].
  exact (clean_describe_keeps_line_end "v1.2.3" "3" 3 sample_sha
           eq_refl eq_refl eq_refl).
Defined.

(** X25. A describe output without any ["-"] has one piece only, and the
    parser raises [IndexError] when it takes the second piece off the
    list. *)
Theorem describe_without_dash_raises text :
  Text.all (fun c => negb (is_dash c)) text = true ->
  Git.describe_info (Text.split "-" text) = Raise IndexError.
Proof.
  intros Htext. rewrite (split_without_sep "-" text Htext).
  unfold Git.describe_info, pop. unfold_monad. cbn [last or_raise].
  destruct (String.eqb (Text.strip text) "dirty"); reflexivity.
Qed.

Lemma describe_without_dash_raises_witness :
  Text.all (fun c => negb (is_dash c)) "v1.2.3" = true
  /\ Git.describe_info (Text.split "-" "v1.2.3") = Raise IndexError.
Proof.
  split; [reflexivity |].
  exact (describe_without_dash_raises "v1.2.3" eq_refl).
Defined.

Lemma split_pieces_free sep s piece :
  In piece (Text.split sep s) ->
  Text.all (fun c => negb (Ascii.eqb c sep)) piece = true.
Proof.
  revert piece. induction s as [| c s IH]; cbn [Text.split]; intros piece Hin.
  - destruct Hin as [<- | []]. reflexivity.
  - destruct (Ascii.eqb c sep) eqn:Ec.
    + destruct Hin as [<- | Hin]; [reflexivity | exact (IH piece Hin)].
    + destruct (split_nonempty sep s) as (h & t & Hs). rewrite Hs in *.
      destruct Hin as [<- | Hin].
      * cbn [Text.all]. rewrite Ec. apply (IH h). left. reflexivity.
      * apply IH. right. exact Hin.
Qed.

Lemma chars_all p s :
  Text.all p s = true -> Forall (fun ch => Text.all p ch = true) (Text.chars s).
Proof.
  induction s as [| c s IH]; cbn [Text.chars Text.all]; [constructor |].
  intros [Hc Hs]%andb_true_iff. specialize (IH Hs).
  destruct (Text.chars s) as [| [| b1 g] gs].
  - repeat constructor. cbn. rewrite Hc. reflexivity.
  - constructor; [cbn; rewrite Hc; reflexivity | exact IH].
  - inversion IH as [| ? ? Hg Hgs]; subst.
    destruct (Text.continuation b1).
    + constructor; [| exact Hgs]. cbn [Text.all]. rewrite Hc. exact Hg.
    + constructor; [cbn; rewrite Hc; reflexivity | exact IH].
Qed.

Lemma dropwhile_Forall {A} (P : A -> Prop) p l :
  Forall P l -> Forall P (Text.dropwhile p l).
Proof.
  induction 1 as [| x l Hx Hl IH]; cbn [Text.dropwhile]; [constructor |].
  destruct (p x); [exact IH | constructor; assumption].
Qed.

Lemma join_all p l :
  Forall (fun ch => Text.all p ch = true) l ->
  Text.all p (Text.join "" l) = true.
Proof.
  induction 1 as [| x l Hx Hl IH]; [reflexivity |].
  destruct l as [| y l']; [exact Hx |].
  change (Text.join "" (x :: y :: l')) with (x +:+ "" +:+ Text.join "" (y :: l')).
  rewrite !all_app. rewrite Hx, IH. reflexivity.
Qed.

(** [strip] introduces no character. *)
Lemma strip_all p s : Text.all p s = true -> Text.all p (Text.strip s) = true.
Proof.
  intros Hs. unfold Text.strip. apply join_all.
  apply Forall_rev, dropwhile_Forall, Forall_rev, dropwhile_Forall.
  exact (chars_all p s Hs).
Qed.

Lemma int_digits_lower acc after s n :
  0 <= acc -> Text.int_digits acc after s = Some n -> 0 <= n.
Proof.
  revert acc after. induction s as [| c s IH]; cbn [Text.int_digits]; intros acc after Hacc H.
  - destruct after; [injection H as <-; exact Hacc | discriminate].
  - destruct (Text.is_digit c).
    + apply (IH (10 * acc + Z.of_N (Text.code c - 48)) true); [lia | exact H].
    + destruct ((Text.code c =? 95)%N && after); [| discriminate].
      exact (IH _ _ Hacc H).
Qed.

(** [int] gives no negative number for a string without ["-"]. *)
Lemma int_without_dash s n :
  Text.all (fun c => negb (Ascii.eqb c "-")) s = true ->
  Text.int s = Some n -> 0 <= n.
Proof.
  intros Hs. pose proof (strip_all _ s Hs) as Hstrip.
  unfold Text.int. destruct (Text.strip s) as [| c t]; [discriminate |].
  cbn [Text.all] in Hstrip. apply andb_true_iff in Hstrip.
  destruct Hstrip as [Hc _]. apply negb_true_iff in Hc.
  assert ((Text.code c =? 45)%N = false) as ->.
  { apply N.eqb_neq. intros Hcode. apply Ascii.eqb_neq in Hc. apply Hc.
    unfold Text.code in Hcode.
    rewrite <- (ascii_N_embedding c), Hcode. reflexivity. }
  destruct (Text.code c =? 43)%N; apply int_digits_lower; lia.
Qed.

Lemma last_In {A} (l : list A) x : last l = Some x -> In x l.
Proof.
  intros H. apply last_Some in H. destruct H as [l' ->].
  apply in_or_app. right. left. reflexivity.
Qed.

Lemma removelast_In {A} (l : list A) x : In x (removelast l) -> In x l.
Proof.
  destruct (last l) as [y |] eqn:E.
  - apply last_Some in E. destruct E as [l' ->].
    rewrite removelast_last. intros H. apply in_or_app. left. exact H.
  - apply last_None in E. subst l. intros [].
Qed.

(** X26. Whatever [git describe] printed, a tag info the parser returns
    has a string under [commit_sha], an integer under
    [distance_to_latest_tag] that is not negative, a string under
    [current_version], and under [dirty] either nothing or [True], never
    [False]. *)
Theorem describe_info_keys text info :
  Git.describe_info (Text.split "-" text) = Ok info ->
  (exists sha, info !! "commit_sha" = Some (PyStr sha))
  /\ (exists n, info !! "distance_to_latest_tag" = Some (PyInt n) /\ 0 <= n)
  /\ (exists version, info !! "current_version" = Some (PyStr version))
  /\ (info !! "dirty" = None \/ info !! "dirty" = Some (PyBool true)).
Proof.
  pose proof (split_pieces_free "-" text) as Hfree.
  generalize dependent (Text.split "-" text). intros pieces Hfree.
  unfold Git.describe_info, pop. unfold_monad.
  destruct (last pieces) as [tail |] eqn:Etail; [| discriminate].
  cbn [or_raise].
  destruct (String.eqb (Text.strip tail) "dirty").
  - destruct (last (removelast pieces)) as [sha |] eqn:Esha; [| discriminate].
    destruct (last (removelast (removelast pieces))) as [d |] eqn:Ed;
      [| discriminate].
    destruct (Text.int d) as [n |] eqn:En; [| discriminate].
    cbn [or_raise]. intros [= <-].
    assert (0 <= n) as Hn.
    { apply (int_without_dash d n); [| exact En].
      apply Hfree. apply removelast_In, removelast_In, last_In. exact Ed. }
    split; [eexists; reflexivity |].
    split; [exists n; split; [reflexivity | exact Hn] |].
    split; [eexists; reflexivity | right; reflexivity].
  - destruct (last pieces) as [sha |] eqn:Esha; [| discriminate].
    destruct (last (removelast pieces)) as [d |] eqn:Ed; [| discriminate].
    destruct (Text.int d) as [n |] eqn:En; [| discriminate].
    cbn [or_raise]. intros [= <-].
    assert (0 <= n) as Hn.
    { apply (int_without_dash d n); [| exact En].
      apply Hfree. apply removelast_In, last_In. exact Ed. }
    split; [eexists; reflexivity |].
    split; [exists n; split; [reflexivity | exact Hn] |].
    split; [eexists; reflexivity | left; reflexivity].
Qed.

Lemma describe_info_keys_witness :
  Git.describe_info
    (Text.split "-" ("v1.2.3-0-g" +:+ sample_sha +:+ "-dirty"))
  = Ok (<["current_version" := PyStr "1.2.3"]>
          (<["distance_to_latest_tag" := PyInt 0]>
             (<["commit_sha" := PyStr sample_sha]>
                (<["dirty" := PyBool true]> ∅))))
  /\ exists n,
       (<["current_version" := PyStr "1.2.3"]>
          (<["distance_to_latest_tag" := PyInt 0]>
             (<["commit_sha" := PyStr sample_sha]>
                (<["dirty" := PyBool true]> (∅ : gmap string pyobj)))))
       !! "distance_to_latest_tag" = Some (PyInt n) /\ 0 <= n.
Proof.
  split; [reflexivity |].
  exact (proj1 (proj2 (describe_info_keys
                         ("v1.2.3-0-g" +:+ sample_sha +:+ "-dirty") _ eq_refl))).
Defined.

(** ** What no method changes *)

Lemma same_setting_refl w : same_setting w w.
Proof. repeat split. exists []. rewrite app_nil_r. reflexivity. Qed.

Lemma same_setting_trans w1 w2 w3 :
  same_setting w1 w2 -> same_setting w2 w3 -> same_setting w1 w3.
Proof.
  intros (He1 & Hc1 & l1 & Hl1) (He2 & Hc2 & l2 & Hl2).
  split; [congruence | split; [congruence |]].
  exists (l1 ++ l2). rewrite Hl2, Hl1, app_assoc. reflexivity.
Qed.

Lemma keeps_ret {A} (a : A) : keeps_setting (mret a).
Proof. intros w. apply same_setting_refl. Qed.

Lemma keeps_raise {A} e : keeps_setting (@raise A e).
Proof. intros w. apply same_setting_refl. Qed.

Lemma keeps_lift {A} (r : result A) : keeps_setting (lift r).
Proof. intros w. apply same_setting_refl. Qed.

Lemma keeps_bind {A B} (m : M A) (f : A -> M B) :
  keeps_setting m -> (forall a, keeps_setting (f a)) ->
  keeps_setting (mbind f m).
Proof.
  intros Hm Hf w. unfold mbind, M_bind.
  specialize (Hm w). destruct (m w) as [[a | e] w1]; [| exact Hm].
  exact (same_setting_trans _ _ _ Hm (Hf a w1)).
Qed.

Lemma keeps_try_except {A} (body : M A) handler :
  keeps_setting body -> (forall e, keeps_setting (handler e)) ->
  keeps_setting (try_except body handler).
Proof.
  intros Hb Hh w. unfold try_except.
  specialize (Hb w). destruct (body w) as [[a | e] w1]; [exact Hb |].
  exact (same_setting_trans _ _ _ Hb (Hh e w1)).
Qed.

Lemma keeps_try_finally {A} (body : M A) cleanup :
  keeps_setting body -> keeps_setting cleanup ->
  keeps_setting (try_finally body cleanup).
Proof.
  intros Hb Hc w. unfold try_finally.
  specialize (Hb w). destruct (body w) as [r w1].
  specialize (Hc w1). destruct (cleanup w1) as [[u | e] w2];
    exact (same_setting_trans _ _ _ Hb Hc).
Qed.

Lemma keeps_spawn args env : keeps_setting (spawn args env).
Proof.
  intros w. unfold spawn.
  destruct (execute w args _ (files w)) as [[rc out | errno] fs];
    (split; [reflexivity | split; [reflexivity |]]);
    eexists; reflexivity.
Qed.

Lemma keeps_run cmd env : keeps_setting (run cmd env).
Proof.
  unfold run. apply keeps_bind; [apply keeps_lift | intros; apply keeps_spawn].
Qed.

Lemma keeps_check_output cmd env : keeps_setting (check_output cmd env).
Proof.
  unfold check_output. apply keeps_bind; [apply keeps_run |].
  intros [rc out]. destruct (rc =? 0); [apply keeps_ret | apply keeps_raise].
Qed.

Lemma keeps_subprocess_call cmd : keeps_setting (subprocess_call cmd).
Proof.
  unfold subprocess_call. apply keeps_bind; [apply keeps_run |].
  intros [rc out]. apply keeps_ret.
Qed.

Lemma keeps_getattr cls name : keeps_setting (getattr cls name).
Proof.
  intros w. unfold getattr.
  destruct (classes w !! _); [apply same_setting_refl |].
  destruct (classes w !! _); apply same_setting_refl.
Qed.

Lemma keeps_files fs w : same_setting w (set_files fs w).
Proof.
  split; [reflexivity | split; [reflexivity |]].
  exists []. cbn [started set_files]. rewrite app_nil_r. reflexivity.
Qed.

Lemma keeps_NamedTemporaryFile : keeps_setting NamedTemporaryFile.
Proof. intros w. apply keeps_files. Qed.

Lemma keeps_file_write name data : keeps_setting (file_write name data).
Proof. intros w. apply keeps_files. Qed.

Lemma keeps_os_environ_copy : keeps_setting os_environ_copy.
Proof. intros w. apply same_setting_refl. Qed.

Lemma keeps_os_unlink path : keeps_setting (os_unlink path).
Proof.
  intros w. unfold os_unlink.
  destruct (files w !! path); [apply keeps_files | apply same_setting_refl].
Qed.

Lemma keeps_for_each {A B} (items : list A) (body : B -> A -> M B) b :
  (forall b x, keeps_setting (body b x)) ->
  keeps_setting (for_each items body b).
Proof.
  intros Hbody. revert b.
  induction items as [| x items IH]; intros b; cbn [for_each].
  - apply keeps_ret.
  - apply keeps_bind; [apply Hbody | exact IH].
Qed.

Lemma keeps_raise_if_dirty title lines : keeps_setting (raise_if_dirty title lines).
Proof.
  unfold raise_if_dirty. destruct lines; [apply keeps_ret |].
  apply keeps_bind; [apply keeps_lift | intros; apply keeps_raise].
Qed.

Lemma keeps_load_fast frame name : keeps_setting (load_fast frame name).
Proof.
  unfold load_fast. destruct (frame !! name); [apply keeps_ret | apply keeps_raise].
Qed.

Ltac keeps :=
  repeat first
    [ apply keeps_ret | apply keeps_raise | apply keeps_lift
    | apply keeps_check_output | apply keeps_subprocess_call
    | apply keeps_getattr | apply keeps_os_unlink | apply keeps_load_fast
    | apply keeps_raise_if_dirty
    | apply keeps_bind; [| intros ?]
    | apply keeps_try_except; [| intros ?]
    | apply keeps_try_finally
    | apply keeps_for_each; intros ? ?
    | match goal with
      | |- keeps_setting (match ?x with _ => _ end) => destruct x
      | |- keeps_setting (if ?x then _ else _) => destruct x
      end ].

(** X27. No method of a backend changes the environment of the calling
    process or an attribute of a class, and none removes an entry from
    the record of the commands started: [is_usable], [assert_nondirty],
    [latest_tag_info], [commit], [tag] and [add_path] change files and
    start commands, nothing else. *)
Theorem methods_keep_setting cls :
  keeps_setting (is_usable cls)
  /\ keeps_setting (assert_nondirty cls)
  /\ keeps_setting (latest_tag_info cls)
  /\ (forall message context extra_args,
        keeps_setting (commit cls message context extra_args))
  /\ (forall sign name message, keeps_setting (tag cls sign name message))
  /\ (forall path, keeps_setting (add_path cls path)).
Proof.
  assert (keeps_setting SVN.current_url) as Hurl.
  { unfold SVN.current_url. keeps. }
  assert (keeps_setting SVN.repo_urls) as Hurls.
  { unfold SVN.repo_urls. apply keeps_bind; [exact Hurl | intros; apply keeps_ret]. }
  split; [| split; [| split; [| split; [| split]]]].
  - destruct cls; unfold is_usable, BaseVCS.is_usable, SVN.is_usable;
      try (apply keeps_bind; [exact Hurls | intros; apply keeps_ret]); keeps.
  - destruct cls;
      unfold assert_nondirty, Git.assert_nondirty, Mercurial.assert_nondirty,
        SVN.assert_nondirty; keeps.
  - destruct cls;
      unfold latest_tag_info, Git.latest_tag_info, Mercurial.latest_tag_info,
        SVN.latest_tag_info; keeps.
  - intros message context extra_args.
    unfold commit, BaseVCS.commit.
    apply keeps_bind; [apply keeps_NamedTemporaryFile | intros f].
    apply keeps_bind; [apply keeps_lift | intros data].
    apply keeps_bind; [apply keeps_file_write | intros _].
    apply keeps_bind; [apply keeps_os_environ_copy | intros env].
    keeps.
  - intros sign name message.
    destruct cls; unfold tag, Git.tag, Mercurial.tag, SVN.tag;
      try (apply keeps_bind; [exact Hurls | intros urls]); keeps.
  - intros path.
    destruct cls; unfold add_path, Git.add_path, Mercurial.add_path, SVN.add_path;
      keeps.
Qed.
